(** * AMCTools: roster preparation and grade integration (appy16.py)

    A shallow embedding of the four functions of [appy16.py]
    ([find_header_row], [process_excel], [process_csv],
    [generate_final_excel]) and of the second tab of the page, which chains
    the last two.

    pandas objects are represented by what the program can observe of them:
    - a cell is a text, a number or a missing value ([NaN], an empty cell);
      a date is a text that reads as no number, and the booleans of Excel,
      which a roster does not use, are left out;
    - numbers are exact rationals ([Qc]): every finite [int64] or [float64]
      is one, and equality and order on them are the ones pandas uses;
    - a [DataFrame] read with [header=None] is the list of its rows; a
      [DataFrame] with promoted column labels is a [frame];
    - an uploaded file is represented by what [pd.read_excel] or
      [pd.read_csv] makes of it: a table, or an exception with its text;
    - [st.session_state] is a record threaded through the functions, and the
      calls to [st.error] and [st.warning] are collected in a list;
    - the workbook written by [pd.ExcelWriter] is a finite map from
      (row, column) positions to cells. *)

From Stdlib Require Import Ascii QArith Qcanon.
From stdpp Require Import numbers strings pretty gmap list.

Close Scope Q_scope.

(** ** Cells and tables *)

Inductive cell :=
  | CStr (s : string)
  | CNum (q : Qc)
  | CNaN.

Global Instance cell_eq_dec : EqDecision cell.
Proof. solve_decision. Defined.

(** Rows of a table read without header inference. *)
Abbreviation raw_table := (list (list cell)).

Record frame := Frame {
  columns : list cell;
  rows : list (list cell)
}.

Global Instance frame_eq_dec : EqDecision frame.
Proof. solve_decision. Defined.

(** A call that may raise: [Raised e] carries [str(e)]. An uploaded file is
    given as what [pd.read_excel] or [pd.read_csv] does on it. Exceptions
    that pandas or Python raise later on are named by their class. *)
Inductive raising (A : Type) :=
  | Raised (e : string)
  | Returned (v : A).
Arguments Raised {A} e.
Arguments Returned {A} v.

Global Instance raising_ret : MRet raising := λ A v, Returned v.
Global Instance raising_bind : MBind raising := λ A B f m,
  match m with
  | Raised e => Raised e
  | Returned v => f v
  end.

(** The two conversions between text and numbers that pandas provides:
    [str(x)] for a numeric cell and the text parser behind
    [pd.to_numeric], which gives no number for a text it rejects. *)
Class Pandas := {
  str_of_number : Qc → string;
  parse_number : string → option Qc
}.

(** ** Session state and user-visible messages *)

Record session_state := SessionState {
  original_data : option frame;
  header_rows : option raw_table
}.

Definition initial_state : session_state :=
  {| original_data := None; header_rows := None |}.

Inductive message :=
  | Error (text : string)
  | Warning (text : string).

Record outcome (A : Type) := Outcome {
  result : option A;
  state : session_state;
  shown : list message
}.
Arguments Outcome {A} result state shown.
Arguments result {A} o.
Arguments state {A} o.
Arguments shown {A} o.

(** [st.error(text); return None, None] *)
Definition failure {A} (st : session_state) (text : string) : outcome A :=
  Outcome None st [Error text].

(** ** Python sets of floats

    [set(series)] iterates a float64 column, which yields a fresh Python
    float for every element: equal numbers collapse, but NaN is not equal to
    itself, so every NaN of the column is an element of its own. *)

Record pyset := PySet {
  numbers : gset Qc;
  nans : nat
}.

Definition set_of (values : list (option Qc)) : pyset :=
  {| numbers := list_to_set (omap id values);
     nans := length (filter (λ v, v = None) values) |}.

(** [a - b]: the NaN objects of [a] are never elements of [b]. *)
Definition pyset_difference (a b : pyset) : pyset :=
  {| numbers := numbers a ∖ numbers b; nans := nans a |}.

Definition pyset_len (s : pyset) : nat := size (numbers s) + nans s.

(** ** The workbook *)

Abbreviation sheet := (gmap (nat * nat) cell).

Fixpoint write_row (r c : nat) (cells : list cell) (s : sheet) : sheet :=
  match cells with
  | [] => s
  | x :: cells' => <[(r, c) := x]> (write_row r (S c) cells' s)
  end.

(** Rows written downwards from [startrow], each from column 0. *)
Fixpoint write_rows (startrow : nat) (table : raw_table) (s : sheet) : sheet :=
  match table with
  | [] => s
  | row :: table' => write_row startrow 0 row (write_rows (S startrow) table' s)
  end.

Section AMCTools.
Context {pd : Pandas}.

(** ** Column operations *)

(** [row.astype(str)] on one value. pandas writes a number with or without
    a decimal point according to the type it gives the row; [str_of_number]
    stands for the text it writes. *)
Definition cell_str (c : cell) : string :=
  match c with
  | CStr s => s
  | CNum q => str_of_number q
  | CNaN => "nan"
  end.

(** [pd.to_numeric(_, errors='coerce')] on one value. *)
Definition to_numeric (c : cell) : option Qc :=
  match c with
  | CStr s => parse_number s
  | CNum q => Some q
  | CNaN => None
  end.

Definition numeric_cell (v : option Qc) : cell :=
  match v with
  | Some q => CNum q
  | None => CNaN
  end.

Definition coerce (c : cell) : cell := numeric_cell (to_numeric c).

(** The value of a cell of a numeric column. *)
Definition number_of (c : cell) : option Qc :=
  match c with
  | CNum q => Some q
  | _ => None
  end.

(** Positions of the columns that carry a label. A table of pandas may
    carry a label more than once; [pd.read_csv] makes the labels of a file
    distinct, so [column_index] is the position of the label in its
    tables. *)
Definition column_positions (label : cell) (labels : list cell) : list nat :=
  (fst <$> filter (λ p, p.2 = label) (imap pair labels)).

Definition column_index (name : string) (df : frame) : option nat :=
  head (column_positions (CStr name) (columns df)).

(** The cell of a row in column [j]; rows of a DataFrame all have the
    width of the table, and a cell that a file leaves out is read as NaN. *)
Definition cell_at (j : nat) (row : list cell) : cell :=
  default CNaN (row !! j).

Definition column (j : nat) (table : raw_table) : list cell :=
  cell_at j <$> table.

(** [df[name] = pd.to_numeric(df[name], errors='coerce')] *)
Definition to_numeric_column (j : nat) (table : raw_table) : raw_table :=
  alter coerce j <$> table.

(** [series.isna()] on one value. *)
Definition isna (c : cell) : bool :=
  match c with
  | CNaN => true
  | _ => false
  end.

(** [series < bound] and [series > bound] on one value: a comparison with
    NaN is false. *)
Definition below (bound : Qc) (c : cell) : bool :=
  match c with
  | CNum q => bool_decide (q < bound)%Qc
  | _ => false
  end.

Definition above (bound : Qc) (c : cell) : bool :=
  match c with
  | CNum q => bool_decide (bound < q)%Qc
  | _ => false
  end.

(** ** Header Locator *)

Definition row_has_terms (required_terms : list string) (row : list cell) : bool :=
  forallb (λ term, bool_decide (term ∈ cell_str <$> row)) required_terms.

Fixpoint find_header_row_from (index : nat) (df : raw_table)
    (required_terms : list string) : option nat :=
  match df with
  | [] => None
  | row :: df' =>
      if row_has_terms required_terms row then Some index
      else find_header_row_from (S index) df' required_terms
  end.

Definition find_header_row (df : raw_table) (required_terms : list string)
    : option nat :=
  find_header_row_from 0 df required_terms.

(** ** Roster Normalizer *)

Definition required_terms : list string := ["Code"; "Nom"; "Prénom"].

(** [rename(columns={'Code': 'A:Code'})] on one label. *)
Definition rename_code (label : cell) : cell :=
  if bool_decide (label = CStr "Code") then CStr "A:Code" else label.

(** [df.empty]: no row or no column. *)
Definition df_empty (df : frame) : bool :=
  bool_decide (columns df = [] ∨ rows df = []).

Definition process_excel (file : raising raw_table) (st : session_state)
    : outcome (frame * raw_table) :=
  let except e := failure st ("Erreur lors du traitement Excel : " +:+ e) in
  match file with
  | Raised e => except e
  | Returned df =>
      match find_header_row df required_terms with
      | None =>
          failure st
            "La ligne contenant 'Code', 'Nom' et 'Prénom' n'a pas été trouvée."
      | Some header_row_index =>
          let rows_before_header := take header_row_index df in
          let df_data := drop header_row_index df in
          let df_data :=
            {| columns := rename_code <$> default [] (head df_data);
               rows := drop 1 df_data |} in
          if df_empty df_data then
            failure st "Fichier Excel vide après traitement."
          else
            match column_positions (CStr "A:Code") (columns df_data) with
            | [] => except "KeyError"
            | [j] =>
                let df_data :=
                  {| columns := columns df_data;
                     rows := to_numeric_column j (rows df_data) |} in
                let invalid_codes :=
                  filter (λ row, isna (cell_at j row)) (rows df_data) in
                Outcome (Some (df_data, rows_before_header))
                  {| original_data := Some df_data;
                     header_rows := Some rows_before_header |}
                  (if bool_decide (invalid_codes = []) then []
                   else [Warning (pretty (length invalid_codes)
                                  +:+ " codes étudiants invalides détectés")])
            | _ => except "TypeError"
            end
      end
  end.

(** ** Grade File Validator *)

Definition required_columns : list string := ["A:Code"; "Nom"; "Prénom"; "Note"].

(** Check 4: the roster's codes that the grade file does not have. A roster
    is stored with exactly one column [A:Code] ([process_excel] fails
    before it stores another); on any other table the lookup is given as
    failing. *)
Definition missing_codes (original : frame) (code : list cell) : raising pyset :=
  match column_positions (CStr "A:Code") (columns original) with
  | [j] =>
      let original_codes := set_of (number_of <$> column j (rows original)) in
      let csv_codes :=
        set_of (number_of <$> filter (λ c, negb (isna c)) code) in
      Returned (pyset_difference original_codes csv_codes)
  | _ => Raised "KeyError"
  end.

Definition detect_anomalies (note code : list cell) (st : session_state)
    : raising (list string) :=
  let notes_manquantes :=
    if existsb isna note then
      [pretty (length (filter (λ c, isna c) note)) +:+ " notes manquantes"]
    else [] in
  let hors_intervalle :=
    if existsb (below 0) note || existsb (above (Q2Qc 20)) note then
      ["Notes hors intervalle [0-20]"]
    else [] in
  let codes_invalides :=
    if existsb isna code then
      [pretty (length (filter (λ c, isna c) code))
       +:+ " codes étudiants invalides"]
    else [] in
  match original_data st with
  | None => Returned (notes_manquantes ++ hors_intervalle ++ codes_invalides)
  | Some original =>
      missing ← missing_codes original code;
      Returned (notes_manquantes ++ hors_intervalle ++ codes_invalides ++
        if bool_decide (pyset_len missing = 0) then []
        else [pretty (pyset_len missing)
              +:+ " étudiants de l'Excel non présents dans le CSV"])
  end.

Definition process_csv (file : raising frame) (st : session_state)
    : outcome (frame * list string) :=
  let except e := failure st ("Erreur lors du traitement CSV : " +:+ e) in
  match file with
  | Raised e => except e
  | Returned df =>
      let missing_columns :=
        filter (λ col, CStr col ∉ columns df) required_columns in
      if bool_decide (missing_columns = []) then
        match column_index "A:Code" df, column_index "Note" df with
        | Some c, Some n =>
            let df :=
              {| columns := columns df;
                 rows := to_numeric_column n (to_numeric_column c (rows df)) |} in
            match detect_anomalies (column n (rows df)) (column c (rows df)) st with
            | Raised e => except e
            | Returned anomalies => Outcome (Some (df, anomalies)) st []
            end
        | _, _ => except "KeyError"
        end
      else
        failure st ("Colonnes manquantes : "
                    +:+ String.concat ", " missing_columns)
  end.

(** ** Merger *)

(** [cleaned_csv[['A:Code', 'Note']]] as (code, note) pairs. *)
Definition code_note (cleaned_csv : frame) : raising (list (cell * cell)) :=
  match column_index "A:Code" cleaned_csv, column_index "Note" cleaned_csv with
  | Some c, Some n =>
      Returned (zip (column c (rows cleaned_csv)) (column n (rows cleaned_csv)))
  | _, _ => Raised "KeyError"
  end.

(** Labels of the merged table: the right table brings [Note]; where the
    left table has a [Note] of its own the two get the suffixes [_x] and
    [_y], and pandas refuses suffixes that create a duplicate label: a
    [Note_x] that the left table already has, next to its renamed [Note],
    or a [Note_y] that the left table already has, next to the renamed
    [Note] of the right table. Labels that the left table itself repeats
    are not refused. *)
Definition merge_labels (left : list cell) : raising (list cell) :=
  if bool_decide (CStr "Note" ∈ left) then
    if bool_decide (CStr "Note_x" ∈ left ∨ CStr "Note_y" ∈ left)
    then Raised "MergeError"
    else
      Returned
        (((λ l, if bool_decide (l = CStr "Note") then CStr "Note_x" else l)
            <$> left) ++ [CStr "Note_y"])
  else Returned (left ++ [CStr "Note"]).

(** The notes of the right rows whose key equals [key], in order. Missing
    keys match each other, as [DataFrame.merge] has it. *)
Definition matching_notes (key : cell) (right : list (cell * cell)) : list cell :=
  snd <$> filter (λ r, number_of r.1 = number_of key) right.

(** [how='left']: every left row, in order, once per matching right row, or
    once with a missing note. *)
Definition merge_rows (j : nat) (left : raw_table) (right : list (cell * cell))
    : raw_table :=
  row ← left;
  match matching_notes (cell_at j row) right with
  | [] => [row ++ [CNaN]]
  | notes => (λ note, row ++ [note]) <$> notes
  end.

(** [left.merge(right, on='A:Code', how='left')], for a left table with
    one key column as the stored roster has. *)
Definition merge (left : frame) (right : list (cell * cell)) : raising frame :=
  match column_positions (CStr "A:Code") (columns left) with
  | [j] =>
      labels ← merge_labels (columns left);
      Returned {| columns := labels; rows := merge_rows j (rows left) right |}
  | _ => Raised "KeyError"
  end.

(** The number of columns of a table without labels, and
    [header_df.empty]: no row or no column. *)
Definition width (table : raw_table) : nat := max_list (length <$> table).

Definition raw_empty (table : raw_table) : bool :=
  bool_decide (length table = 0 ∨ width table = 0).

Definition generate_final_excel (cleaned_csv : frame) (st : session_state)
    : outcome sheet :=
  let body : raising sheet :=
    match original_data st with
    | None => Raised "AttributeError"
    | Some original =>
        right ← code_note cleaned_csv;
        final_df ← merge original right;
        match header_rows st with
        | None => Raised "AttributeError"
        | Some header_df =>
            let book :=
              if negb (raw_empty header_df) then write_rows 0 header_df ∅
              else ∅ in
            Returned
              (write_rows (length header_df)
                 (columns final_df :: rows final_df) book)
        end
    end in
  match body with
  | Raised e =>
      failure st ("Erreur lors de la génération du fichier final : " +:+ e)
  | Returned final_file => Outcome (Some final_file) st []
  end.

(** ** Second tab of the page: validate the grade file, then merge

    The file offered for download when a grade file is uploaded. The page
    shows the anomalies and the statistics of the scores in between; they
    decide nothing. *)

Definition tab2 (uploaded_csv : raising frame) (st : session_state)
    : option sheet :=
  match original_data st with
  | None => None
  | Some _ =>
      match result (process_csv uploaded_csv st) with
      | None => None
      | Some (cleaned_csv, anomalies) =>
          result (generate_final_excel cleaned_csv st)
      end
  end.

(** ** First tab of the page, and the page

    The first tab processes the spreadsheet when one is uploaded and offers
    the roster for download as a CSV file; its result here is the table it
    exports. The script runs both tabs at every rerun, the first before the
    second. *)

Definition tab1 (uploaded_excel : option (raising raw_table))
    (st : session_state) : outcome frame :=
  match uploaded_excel with
  | None => Outcome None st []
  | Some file =>
      let run := process_excel file st in
      Outcome (fst <$> result run) (state run) (shown run)
  end.

Definition page (uploaded_excel : option (raising raw_table))
    (uploaded_csv : option (raising frame)) (st : session_state)
    : session_state * option frame * option sheet :=
  let run := tab1 uploaded_excel st in
  (state run, result run,
   match uploaded_csv with
   | None => None
   | Some file => tab2 file (state run)
   end).

(** The session state after a sequence of reruns, each with what its two
    uploaders hold. *)
Fixpoint session
    (reruns : list (option (raising raw_table) * option (raising frame)))
    (st : session_state) : session_state :=
  match reruns with
  | [] => st
  | (uploaded_excel, uploaded_csv) :: reruns' =>
      session reruns' (page uploaded_excel uploaded_csv st).1.1
  end.

End AMCTools.

(** ** A sample instance of the conversions

    Plain integer literals and their decimal text, on which every parser
    agrees; used to run the functions on concrete tables. *)

Definition digit_value (a : ascii) : option N :=
  let n := N_of_ascii a in
  if (48 <=? n)%N && (n <=? 57)%N then Some (n - 48)%N else None.

Fixpoint digits_value (acc : N) (s : string) : option N :=
  match s with
  | EmptyString => Some acc
  | String a s' => d ← digit_value a; digits_value (acc * 10 + d)%N s'
  end.

Definition integer_literal (s : string) : option Qc :=
  match s with
  | EmptyString => None
  | String "-"%char EmptyString => None
  | String "-"%char s' => (λ n, Q2Qc (inject_Z (- Z.of_N n))) <$> digits_value 0 s'
  | _ => (λ n, Q2Qc (inject_Z (Z.of_N n))) <$> digits_value 0 s
  end.

Definition number_text (q : Qc) : string :=
  if bool_decide (Qden q = 1%positive) then pretty (Qnum q)
  else pretty (Qnum q) +:+ "/" +:+ pretty (Qden q).

Definition integers : Pandas :=
  {| str_of_number := number_text; parse_number := integer_literal |}.

(** * Vocabulary of the statements *)

Section Vocabulary.
Context {pd : Pandas}.

(** The texts of the row's cells include every required term. *)
Definition includes_terms (required_terms : list string) (row : list cell) : Prop :=
  ∀ term, term ∈ required_terms → term ∈ cell_str <$> row.

(** The warning of [process_excel] for [n] invalid codes. *)
Definition invalid_codes_warning (n : nat) : list message :=
  if bool_decide (n = 0) then []
  else [Warning (pretty n +:+ " codes étudiants invalides détectés")].

(** An anomaly that carries a count, reported when the count is not zero. *)
Definition count_report (n : nat) (text : string) : list string :=
  if bool_decide (n = 0) then [] else [pretty n +:+ text].

(** A present score strictly below 0 or strictly above 20. *)
Definition out_of_range (c : cell) : Prop :=
  ∃ q, c = CNum q ∧ (q < 0 ∨ Q2Qc 20 < q)%Qc.

(** The distinct numbers of a column. *)
Definition identifiers (cells : list cell) : gset Qc :=
  list_to_set (omap number_of cells).

(** The note that the grade rows give for a key: that of the first row
    with this key, NaN when there is none. *)
Definition note_for (key : cell) (right : list (cell * cell)) : cell :=
  default CNaN (head (matching_notes key right)).

(** The cell of the workbook at a position; an empty cell reads as NaN. *)
Definition sheet_cell (book : sheet) (i j : nat) : cell :=
  default CNaN (book !! (i, j)).

(** The invariant of the session: a stored roster has exactly one column
    labelled [A:Code]. *)
Definition roster_invariant (st : session_state) : Prop :=
  ∀ roster, original_data st = Some roster →
    ∃ j, column_positions (CStr "A:Code") (columns roster) = [j].

(** The last character of a text. *)
Fixpoint last_char (s : string) : option ascii :=
  match s with
  | EmptyString => None
  | String a EmptyString => Some a
  | String _ s' => last_char s'
  end.

(** The number of NaN cells of a column. *)
Definition count_nan (cells : list cell) : nat :=
  length (filter (λ c, c = CNaN) cells).

(** The number of cells of a column that [pd.to_numeric] turns into NaN. *)
Definition count_unparsable (cells : list cell) : nat :=
  length (filter (λ c, to_numeric c = None) cells).

(** A cell of a column that [pd.to_numeric] has produced. *)
Definition numeric_or_nan (c : cell) : Prop := c = CNaN ∨ ∃ q, c = CNum q.

(** What every session holds: nothing, or a roster together with a
    preamble; the roster has one column [A:Code], whose cells are numbers
    or missing, no column [Code] and at least one row; no row of the
    preamble holds the three labels. *)
Definition stored_ok (roster : frame) (pre : raw_table) : Prop :=
  (∃ j, column_positions (CStr "A:Code") (columns roster) = [j] ∧
        Forall numeric_or_nan (column j (rows roster))) ∧
  (CStr "Code" ∉ columns roster) ∧
  rows roster ≠ [] ∧
  Forall (λ row, ¬ includes_terms required_terms row) pre.

Definition session_ok (st : session_state) : Prop :=
  match original_data st, header_rows st with
  | None, None => True
  | Some roster, Some pre => stored_ok roster pre
  | _, _ => False
  end.

(** The labels of a header row that name the code column once the label
    [Code] is renamed. *)
Definition code_labels (header : list cell) : list cell :=
  filter (λ c, c = CStr "Code" ∨ c = CStr "A:Code") header.

(** The roster has labels that the merge cannot suffix: a [Note] together
    with a [Note_x] or a [Note_y]. *)
Definition labels_clash (labels : list cell) : Prop :=
  CStr "Note" ∈ labels ∧ (CStr "Note_x" ∈ labels ∨ CStr "Note_y" ∈ labels).

(** The rows of the merged table that come from one roster row. *)
Definition block_of (j : nat) (right : list (cell * cell)) (row : list cell)
    (block : raw_table) : Prop :=
  block ≠ [] ∧
  (∀ merged, merged ∈ block →
     ∃ note, merged = row ++ [note] ∧
       ((note = CNaN ∧
         ∀ code score, (code, score) ∈ right →
           number_of code ≠ number_of (cell_at j row)) ∨
        (∃ code, (code, note) ∈ right ∧
           number_of code = number_of (cell_at j row)))) ∧
  (∀ code score, (code, score) ∈ right →
     number_of code = number_of (cell_at j row) → row ++ [score] ∈ block).

End Vocabulary.

(** * Sample tables *)

Definition num (z : Z) : cell := CNum (Q2Qc (inject_Z z)).

(** A spreadsheet with three rows above its header row. *)
Definition promotion_sheet : raw_table :=
  [ [CStr "Faculté des Sciences"; CNaN; CNaN];
    [CStr "Module"; CStr "Analyse 1"; CNaN];
    [CNaN; CNaN; CNaN];
    [CStr "Code"; CStr "Nom"; CStr "Prénom"];
    [num 1; CStr "Dupont"; CStr "Jean"];
    [num 2; CStr "Martin"; CStr "Luc"] ].

(** Its grades, one of them out of range. *)
Definition promotion_grades : frame :=
  {| columns := [CStr "A:Code"; CStr "Nom"; CStr "Prénom"; CStr "Note"];
     rows := [ [num 1; CStr "Dupont"; CStr "Jean"; num 15];
               [num 2; CStr "Martin"; CStr "Luc"; num 22] ] |}.

(** A spreadsheet of three students, and grades with one missing score, one
    score of 21 and no row for the third student. *)
Definition group_sheet : raw_table :=
  [ [CStr "Code"; CStr "Nom"; CStr "Prénom"];
    [num 1; CStr "Dupont"; CStr "Jean"];
    [CStr "2"; CStr "Martin"; CStr "Luc"];
    [num 3; CStr "Petit"; CStr "Anne"] ].

Definition group_grades : frame :=
  {| columns := [CStr "A:Code"; CStr "Nom"; CStr "Prénom"; CStr "Note"];
     rows := [ [num 1; CStr "Dupont"; CStr "Jean"; CNaN];
               [num 2; CStr "Martin"; CStr "Luc"; CStr "21"] ] |}.

(** A spreadsheet in which one student has no code, and grades for every
    student that has one. *)
Definition sheet_with_empty_code : raw_table :=
  [ [CStr "Code"; CStr "Nom"; CStr "Prénom"];
    [num 1; CStr "Dupont"; CStr "Jean"];
    [CNaN; CStr "Martin"; CStr "Luc"] ].

Definition grades_of_dupont : frame :=
  {| columns := [CStr "A:Code"; CStr "Nom"; CStr "Prénom"; CStr "Note"];
     rows := [ [num 1; CStr "Dupont"; CStr "Jean"; num 15] ] |}.

(** A spreadsheet of one student, its roster, and grades that hold two
    rows for this student. *)
Definition sheet_of_dupont : raw_table :=
  [ [CStr "Code"; CStr "Nom"; CStr "Prénom"];
    [num 1; CStr "Dupont"; CStr "Jean"] ].

Definition roster_of_dupont : frame :=
  {| columns := [CStr "A:Code"; CStr "Nom"; CStr "Prénom"];
     rows := [ [num 1; CStr "Dupont"; CStr "Jean"] ] |}.

Definition grades_with_two_rows : frame :=
  {| columns := [CStr "A:Code"; CStr "Nom"; CStr "Prénom"; CStr "Note"];
     rows := [ [num 1; CStr "Dupont"; CStr "Jean"; num 15];
               [num 1; CStr "Dupont"; CStr "Jean"; num 16] ] |}.

(** A spreadsheet whose labels are in lower case, one that ends with its
    header row, and a grade file without the columns [Prénom] and [Note]. *)
Definition sheet_without_header : raw_table :=
  [ [CStr "code"; CStr "nom"; CStr "prénom"];
    [num 1; CStr "Dupont"; CStr "Jean"] ].

Definition sheet_without_students : raw_table :=
  [ [CStr "Liste"; CNaN; CNaN];
    [CStr "Code"; CStr "Nom"; CStr "Prénom"] ].

Definition grades_without_note : frame :=
  {| columns := [CStr "A:Code"; CStr "Nom"];
     rows := [ [num 1; CStr "Dupont"] ] |}.

(** A spreadsheet with a text and an empty cell as codes, and a grade file
    with a text as code and a text as score. *)
Definition sheet_with_text_code : raw_table :=
  [ [CStr "Code"; CStr "Nom"; CStr "Prénom"];
    [num 1; CStr "Dupont"; CStr "Jean"];
    [CStr "abc"; CStr "Martin"; CStr "Luc"];
    [CNaN; CStr "Petit"; CStr "Anne"] ].

Definition grades_with_text : frame :=
  {| columns := [CStr "A:Code"; CStr "Nom"; CStr "Prénom"; CStr "Note"];
     rows := [ [num 1; CStr "Dupont"; CStr "Jean"; CStr "abs"];
               [CStr "?"; CStr "Martin"; CStr "Luc"; CStr "12"] ] |}.

(** A spreadsheet in which a title holds the labels as parts of longer
    texts, and two rows hold the three labels. *)
Definition sheet_with_two_headers : raw_table :=
  [ [CStr "Code Apogée"; CStr "Nom et Prénom"; CNaN];
    [CStr "Nom"; CStr "Prénom"; CStr "Code"];
    [CStr "Code"; CStr "Nom"; CStr "Prénom"];
    [num 1; CStr "Dupont"; CStr "Jean"] ].

(** A spreadsheet that has a column [Note] and a column [Note_y] of its
    own. *)
Definition sheet_with_note_columns : raw_table :=
  [ [CStr "Code"; CStr "Nom"; CStr "Prénom"; CStr "Note"; CStr "Note_y"];
    [num 1; CStr "Dupont"; CStr "Jean"; num 10; num 11] ].

(** The session after a spreadsheet has been processed. *)
Definition session_after (sheet_rows : raw_table) : session_state :=
  state (process_excel (pd := integers) (Returned sheet_rows) initial_state).

(** A decidable proposition settled by evaluation. *)
Ltac by_evaluation := apply (bool_decide_eq_true_1 _); vm_compute; reflexivity.

(** The message that a stage has shown, read on its definition. *)
Ltac shown_message := simpl; first [done | eexists; reflexivity].

(** * Properties *)

(** ** Header Locator *)

Section HeaderLocator.
Context {pd : Pandas}.

Lemma row_has_terms_true required_terms row :
  row_has_terms required_terms row = true ↔ includes_terms required_terms row.
Proof.
  unfold row_has_terms, includes_terms.
  induction required_terms as [|t ts IH]; simpl.
  - split; [intros _ term Hin; inversion Hin | done].
  - rewrite andb_true_iff, bool_decide_eq_true, IH. split.
    + intros [Ht Hts] term Hin. apply elem_of_cons in Hin as [->|Hin]; auto.
    + intros Hall. split; [apply Hall; left | intros term Hin; apply Hall; by right].
Qed.

Lemma row_has_terms_false required_terms row :
  row_has_terms required_terms row = false ↔ ¬ includes_terms required_terms row.
Proof.
  rewrite <- row_has_terms_true. destruct (row_has_terms required_terms row); naive_solver.
Qed.

Lemma find_header_row_from_Some index df required_terms i :
  find_header_row_from index df required_terms = Some i →
  ∃ k row, i = index + k ∧ df !! k = Some row ∧
    includes_terms required_terms row ∧
    ∀ k' row', k' < k → df !! k' = Some row' → ¬ includes_terms required_terms row'.
Proof.
  revert index. induction df as [|r df IH]; intros index; simpl; [done|].
  destruct (row_has_terms required_terms r) eqn:Hr.
  - intros [= <-]. exists 0, r. repeat split; [lia | by apply row_has_terms_true | lia].
  - intros Hfind. apply IH in Hfind as (k & row & -> & Hk & Hrow & Hfirst).
    exists (S k), row. repeat split; [lia | done | done |].
    intros [|k'] row' Hlt Hk'; simpl in Hk'.
    + injection Hk' as <-. by apply row_has_terms_false.
    + apply (Hfirst k'); [lia | done].
Qed.

Lemma find_header_row_from_None index df required_terms :
  find_header_row_from index df required_terms = None ↔
  ∀ row, row ∈ df → ¬ includes_terms required_terms row.
Proof.
  revert index. induction df as [|r df IH]; intros index; simpl.
  - split; [intros _ row Hin; inversion Hin | done].
  - destruct (row_has_terms required_terms r) eqn:Hr.
    + split; [done|]. intros Hall. exfalso.
      apply (Hall r); [left | by apply row_has_terms_true].
    + rewrite IH. split.
      * intros Hall row Hin. apply elem_of_cons in Hin as [->|Hin]; [|by apply Hall].
        by apply row_has_terms_false.
      * intros Hall row Hin. apply Hall. by right.
Qed.

Lemma find_header_row_lt df required_terms i :
  find_header_row df required_terms = Some i → i < length df.
Proof.
  intros Hfind. apply find_header_row_from_Some in Hfind as (k & row & -> & Hk & _).
  apply lookup_lt_Some in Hk. lia.
Qed.

(** C1. If the texts of some row's cells include every required term,
    [find_header_row] returns the index of the first such row: that row
    includes the terms and no row above it does, whatever the rows below
    are. If no row includes them, it returns [None]. The comparison is
    equality of texts. *)
Theorem find_header_row_first_match (df : raw_table) (required_terms : list string) :
  ((∃ row, row ∈ df ∧ includes_terms required_terms row) →
   ∃ i row, find_header_row df required_terms = Some i ∧
     df !! i = Some row ∧ includes_terms required_terms row ∧
     ∀ i' row', i' < i → df !! i' = Some row' →
       ¬ includes_terms required_terms row') ∧
  ((∀ row, row ∈ df → ¬ includes_terms required_terms row) →
   find_header_row df required_terms = None).
Proof.
  split.
  - intros (row & Hin & Hrow). unfold find_header_row.
    destruct (find_header_row_from 0 df required_terms) as [i|] eqn:Hfind.
    + apply find_header_row_from_Some in Hfind as (k & row' & -> & Hk & Hrow' & Hfirst).
      exists k, row'. by repeat split.
    + exfalso. by apply (proj1 (find_header_row_from_None 0 df required_terms) Hfind row).
  - intros Hall. by apply find_header_row_from_None.
Qed.

End HeaderLocator.

(** ** Roster Normalizer *)

Section RosterNormalizer.
Context {pd : Pandas}.

Lemma process_excel_Raised e st :
  process_excel (Raised e) st =
  Outcome None st [Error ("Erreur lors du traitement Excel : " +:+ e)].
Proof. reflexivity. Qed.

(** What a successful run has done. *)
Lemma process_excel_Some file st roster pre :
  result (process_excel file st) = Some (roster, pre) →
  ∃ df k j header,
    file = Returned df ∧
    find_header_row df required_terms = Some k ∧
    df !! k = Some header ∧
    pre = take k df ∧
    columns roster = rename_code <$> header ∧
    column_positions (CStr "A:Code") (columns roster) = [j] ∧
    drop (S k) df ≠ [] ∧
    rows roster = to_numeric_column j (drop (S k) df) ∧
    state (process_excel file st) =
      {| original_data := Some roster; header_rows := Some pre |} ∧
    shown (process_excel file st) =
      invalid_codes_warning
        (length (filter (λ row, isna (cell_at j row)) (rows roster))).
Proof.
  destruct file as [e|df]; [done|]. unfold process_excel.
  destruct (find_header_row df required_terms) as [k|] eqn:Hfind; [|done].
  pose proof (find_header_row_lt _ _ _ Hfind) as Hlt.
  destruct (lookup_lt_is_Some_2 df k Hlt) as [header Hheader].
  assert (head (drop k df) = Some header) as Hhead.
  { by rewrite head_lookup, lookup_drop, Nat.add_0_r. }
  rewrite Hhead, drop_drop, Nat.add_1_r. simpl.
  destruct (df_empty _) eqn:Hempty; [done|].
  destruct (column_positions _ _) as [|j [|j' js]] eqn:Hpos; [done| |done].
  simpl. intros [= <- <-]. exists df, k, j, header. simpl.
  repeat split; try done.
  - intros Hnil. unfold df_empty in Hempty. simpl in Hempty.
    apply bool_decide_eq_false in Hempty. apply Hempty. by right.
  - unfold invalid_codes_warning. repeat case_bool_decide; try done.
    + match goal with Hnil : filter _ _ = [], Hlen : _ ≠ 0 |- _ =>
        by rewrite Hnil in Hlen end.
    + match goal with Hlen : length ?l = 0 |- _ => by destruct l end.
Qed.

(** A spreadsheet with a header row, a single code column and a row below
    the header is processed to the end, whatever its cells hold. *)
Lemma process_excel_returns df st k header j :
  find_header_row df required_terms = Some k →
  df !! k = Some header →
  column_positions (CStr "A:Code") (rename_code <$> header) = [j] →
  drop (S k) df ≠ [] →
  ∃ roster pre, result (process_excel (Returned df) st) = Some (roster, pre).
Proof.
  intros Hfind Hheader Hj Hrows. unfold process_excel. rewrite Hfind.
  assert (head (drop k df) = Some header) as ->.
  { by rewrite head_lookup, lookup_drop, Nat.add_0_r. }
  rewrite drop_drop, Nat.add_1_r. simpl.
  assert (df_empty {| columns := rename_code <$> header; rows := drop (S k) df |}
          = false) as ->.
  { apply bool_decide_eq_false. simpl. intros [Hnil|Hnil]; [|done].
    by rewrite Hnil in Hj. }
  rewrite Hj. simpl. by eexists _, _.
Qed.

Lemma roster_invariant_initial : roster_invariant initial_state.
Proof. intros roster [=]. Qed.

Lemma roster_invariant_process_excel file st :
  roster_invariant st → roster_invariant (state (process_excel file st)).
Proof.
  intros Hst. destruct (result (process_excel file st)) as [[roster pre]|] eqn:Hrun.
  - destruct (process_excel_Some _ _ _ _ Hrun)
      as (df & k & j & header & _ & _ & _ & _ & _ & Hj & _ & _ & -> & _).
    intros roster' [= <-]. by exists j.
  - assert (state (process_excel file st) = st) as ->; [|done].
    destruct file as [e|df]; [done|]. revert Hrun. unfold process_excel.
    destruct (find_header_row df required_terms) as [k|]; [|done].
    destruct (df_empty _); [done|].
    destruct (column_positions _ _) as [|j [|j' js]]; done.
Qed.

End RosterNormalizer.

(** ** Columns *)

Section Columns.
Context {pd : Pandas}.

Lemma elem_of_column_positions label labels j :
  j ∈ column_positions label labels ↔ labels !! j = Some label.
Proof.
  unfold column_positions. rewrite list_elem_of_fmap. split.
  - intros ([i l] & -> & Hin). apply list_elem_of_filter in Hin as [Hl Hin].
    apply elem_of_lookup_imap in Hin as (i' & l' & [= -> ->] & Hlook).
    simpl in *. by subst.
  - intros Hlook. exists (j, label). split; [done|].
    apply list_elem_of_filter. split; [done|].
    apply elem_of_lookup_imap. by exists j, label.
Qed.

Lemma column_index_Some name df j :
  column_index name df = Some j → columns df !! j = Some (CStr name).
Proof.
  unfold column_index. intros Hhead. apply elem_of_column_positions.
  destruct (column_positions _ _); simplify_eq/=. left.
Qed.

Lemma column_index_is_Some name df :
  CStr name ∈ columns df → is_Some (column_index name df).
Proof.
  intros Hin. apply list_elem_of_lookup in Hin as [j Hj].
  apply elem_of_column_positions in Hj. unfold column_index.
  destruct (column_positions _ _); [inversion Hj | by eexists].
Qed.

Lemma column_index_columns name df df' :
  columns df = columns df' → column_index name df = column_index name df'.
Proof. unfold column_index. by intros ->. Qed.

Lemma coerce_numeric_cell v : coerce (numeric_cell v) = numeric_cell v.
Proof. by destruct v. Qed.

Lemma isna_coerce c : isna (coerce c) = bool_decide (to_numeric c = None).
Proof. unfold coerce. by destruct (to_numeric c). Qed.

Lemma cell_at_alter f j row :
  f CNaN = CNaN → cell_at j (alter f j row) = f (cell_at j row).
Proof.
  intros Hf. unfold cell_at. rewrite list_lookup_alter_eq.
  by destruct (row !! j).
Qed.

Lemma cell_at_alter_ne f i j row :
  i ≠ j → cell_at i (alter f j row) = cell_at i row.
Proof. intros Hne. unfold cell_at. by rewrite list_lookup_alter_ne. Qed.

Lemma column_to_numeric_column j table :
  column j (to_numeric_column j table) = coerce <$> column j table.
Proof.
  unfold column, to_numeric_column. rewrite <- !list_fmap_compose.
  apply list_fmap_ext. intros _ row _. simpl. by apply cell_at_alter.
Qed.

Lemma column_to_numeric_column_ne i j table :
  i ≠ j → column i (to_numeric_column j table) = column i table.
Proof.
  intros Hne. unfold column, to_numeric_column. rewrite <- list_fmap_compose.
  apply list_fmap_ext. intros _ row _. simpl. by apply cell_at_alter_ne.
Qed.

Lemma length_to_numeric_column j table :
  length (to_numeric_column j table) = length table.
Proof. apply length_fmap. Qed.

Lemma length_column j table : length (column j table) = length table.
Proof. apply length_fmap. Qed.

Lemma filter_isna_rows j (table : raw_table) :
  length (filter (λ row, isna (cell_at j row)) table) =
  length (filter (λ c, isna c) (column j table)).
Proof.
  unfold column. induction table as [|row table IH]; [done|].
  rewrite fmap_cons, !filter_cons.
  destruct (isna (cell_at j row)); simpl; by rewrite IH.
Qed.

Lemma filter_isna_coerce cells :
  length (filter (λ c, isna c) (coerce <$> cells)) =
  length (filter (λ c, to_numeric c = None) cells).
Proof.
  induction cells as [|c cells IH]; [done|].
  rewrite fmap_cons, !filter_cons, isna_coerce.
  case_bool_decide; simpl; repeat case_decide; simpl; try done; by rewrite IH.
Qed.

Lemma existsb_filter (f : cell → bool) cells :
  existsb f cells = negb (bool_decide (length (filter (λ c, f c) cells) = 0)).
Proof.
  induction cells as [|c cells IH]; [done|].
  simpl. rewrite filter_cons. by destruct (f c).
Qed.

End Columns.

(** ** Grade File Validator *)

Section GradeFileValidator.
Context {pd : Pandas}.

Lemma process_csv_Raised e st :
  process_csv (Raised e) st =
  Outcome None st [Error ("Erreur lors du traitement CSV : " +:+ e)].
Proof. reflexivity. Qed.

(** What a successful run has done. *)
Lemma process_csv_Some file st cleaned_csv anomalies :
  result (process_csv file st) = Some (cleaned_csv, anomalies) →
  ∃ df c n,
    file = Returned df ∧
    (∀ col, col ∈ required_columns → CStr col ∈ columns df) ∧
    column_index "A:Code" df = Some c ∧
    column_index "Note" df = Some n ∧
    c ≠ n ∧
    cleaned_csv =
      {| columns := columns df;
         rows := to_numeric_column n (to_numeric_column c (rows df)) |} ∧
    column c (rows cleaned_csv) = coerce <$> column c (rows df) ∧
    column n (rows cleaned_csv) = coerce <$> column n (rows df) ∧
    detect_anomalies (column n (rows cleaned_csv)) (column c (rows cleaned_csv)) st
      = Returned anomalies ∧
    state (process_csv file st) = st ∧
    shown (process_csv file st) = [].
Proof.
  destruct file as [e|df]; [done|]. unfold process_csv.
  case_bool_decide as Hmissing; [|done].
  destruct (column_index "A:Code" df) as [c|] eqn:Hc; [|done].
  destruct (column_index "Note" df) as [n|] eqn:Hn; [|done].
  simpl. destruct (detect_anomalies _ _ st) as [e|found] eqn:Hfound; [done|].
  simpl. intros [= <- <-]. exists df, c, n.
  assert (c ≠ n) as Hne.
  { intros ->. apply column_index_Some in Hc, Hn. congruence. }
  simpl. repeat split; try done.
  - intros col Hcol. destruct (decide (CStr col ∈ columns df)) as [|Hnot]; [done|].
    assert (col ∈ filter (λ col, CStr col ∉ columns df) required_columns) as Hin.
    { by apply list_elem_of_filter. }
    rewrite Hmissing in Hin. inversion Hin.
  - by rewrite column_to_numeric_column_ne, column_to_numeric_column.
  - rewrite column_to_numeric_column.
    by rewrite column_to_numeric_column_ne by done.
Qed.

(** Check 2 looks at present scores only. *)
Lemma hors_intervalle_true note :
  existsb (below 0) note || existsb (above (Q2Qc 20)) note = true ↔
  Exists out_of_range note.
Proof.
  rewrite orb_true_iff, !existsb_exists, Exists_exists. split.
  - intros [(c & Hin & Hc)|(c & Hin & Hc)]; exists c;
      (split; [by apply list_elem_of_In|]);
      destruct c as [s|q|]; simplify_eq/=; exists q;
      apply bool_decide_eq_true in Hc; auto.
  - intros (c & Hin & q & -> & [Hq|Hq]); [left|right]; exists (CNum q);
      (split; [by apply list_elem_of_In|]); by apply bool_decide_eq_true.
Qed.

Lemma existsb_isna_count cells :
  existsb isna cells = negb (bool_decide (count_nan cells = 0)).
Proof.
  rewrite existsb_filter. unfold count_nan. do 3 f_equal.
  induction cells as [|c cells IH]; [done|].
  rewrite !filter_cons. destruct c; simpl; by rewrite ?IH.
Qed.

Lemma filter_isna_count cells :
  length (filter (λ c, isna c) cells) = count_nan cells.
Proof.
  unfold count_nan. induction cells as [|c cells IH]; [done|].
  rewrite !filter_cons. destruct c; simpl; by rewrite ?IH.
Qed.

Lemma count_nan_coerce cells : count_nan (coerce <$> cells) = count_unparsable cells.
Proof. rewrite <- filter_isna_count. apply filter_isna_coerce. Qed.

(** The four checks are evaluated one after the other, each on its own, and
    their reports are appended in that order. *)
Lemma detect_anomalies_Returned note code st anomalies :
  detect_anomalies note code st = Returned anomalies →
  ∃ range_part roster_part,
    anomalies =
      count_report (count_nan note) " notes manquantes" ++ range_part ++
      count_report (count_nan code) " codes étudiants invalides" ++ roster_part ∧
    (Exists out_of_range note ∧ range_part = ["Notes hors intervalle [0-20]"] ∨
     ¬ Exists out_of_range note ∧ range_part = []) ∧
    match original_data st with
    | None => roster_part = []
    | Some original =>
        ∃ missing, missing_codes original code = Returned missing ∧
          roster_part =
            count_report (pyset_len missing)
              " étudiants de l'Excel non présents dans le CSV"
    end.
Proof.
  unfold detect_anomalies. rewrite !existsb_isna_count, !filter_isna_count.
  fold (count_report (count_nan note) " notes manquantes").
  fold (count_report (count_nan code) " codes étudiants invalides").
  intros Hdetect.
  exists (if existsb (below 0) note || existsb (above (Q2Qc 20)) note
          then ["Notes hors intervalle [0-20]"] else []).
  assert (∀ n text, (if negb (bool_decide (n = 0)) then [pretty n +:+ text] else [])
                    = count_report n text) as Hfold.
  { intros n text. unfold count_report. by destruct (bool_decide (n = 0)). }
  rewrite !Hfold in Hdetect.
  destruct (original_data st) as [original|].
  - destruct (missing_codes original code) as [e|missing] eqn:Hmissing; [done|].
    simpl in Hdetect. injection Hdetect as <-.
    eexists. split; [reflexivity|]. split.
    + destruct (_ || _) eqn:Hrange.
      * left. split; [by apply hors_intervalle_true | done].
      * right. split; [|done]. rewrite <- hors_intervalle_true. congruence.
    + exists missing. split; [done|]. unfold count_report. by case_bool_decide.
  - injection Hdetect as <-. exists []. rewrite !app_nil_r. split; [done|]. split; [|done].
    destruct (_ || _) eqn:Hrange.
    + left. split; [by apply hors_intervalle_true | done].
    + right. split; [|done]. rewrite <- hors_intervalle_true. congruence.
Qed.

End GradeFileValidator.

(** ** Sets of codes *)

Section CodeSets.
Context {pd : Pandas}.

Lemma omap_id_fmap_number_of (cells : list cell) :
  omap id (number_of <$> cells) = omap number_of cells.
Proof. induction cells as [|c cells IH]; [done|]. csimpl. by rewrite IH. Qed.

Lemma numbers_set_of (cells : list cell) :
  numbers (set_of (number_of <$> cells)) = identifiers cells.
Proof. unfold set_of, identifiers. simpl. by rewrite omap_id_fmap_number_of. Qed.

Lemma nans_set_of (cells : list cell) :
  nans (set_of (number_of <$> cells)) =
  length (filter (λ c, number_of c = None) cells).
Proof.
  unfold set_of. simpl. induction cells as [|c cells IH]; [done|].
  rewrite fmap_cons, !filter_cons. repeat case_decide; simpl; try done; by rewrite IH.
Qed.

Lemma elem_of_identifiers (cells : list cell) q : q ∈ identifiers cells ↔ CNum q ∈ cells.
Proof.
  unfold identifiers. rewrite elem_of_list_to_set, list_elem_of_omap. split.
  - intros (c & Hin & Hc). destruct c; simplify_eq/=. done.
  - intros Hin. by exists (CNum q).
Qed.

Lemma identifiers_dropna (cells : list cell) :
  identifiers (filter (λ c, negb (isna c)) cells) = identifiers cells.
Proof.
  apply set_eq. intros q. rewrite !elem_of_identifiers, list_elem_of_filter.
  split; [by intros [_ Hin] | by intros Hin].
Qed.

(** Check 4 counts the distinct roster numbers that the grade file lacks,
    and one more for every roster row without a number. *)
Lemma missing_codes_len original code j missing :
  column_positions (CStr "A:Code") (columns original) = [j] →
  missing_codes original code = Returned missing →
  pyset_len missing =
    size (identifiers (column j (rows original)) ∖ identifiers code) +
    length (filter (λ c, number_of c = None) (column j (rows original))).
Proof.
  unfold missing_codes. intros ->. intros [= <-].
  unfold pyset_len, pyset_difference. cbn [numbers nans].
  by rewrite !numbers_set_of, identifiers_dropna, nans_set_of.
Qed.

Lemma missing_codes_is_Returned original code j :
  column_positions (CStr "A:Code") (columns original) = [j] →
  ∃ missing, missing_codes original code = Returned missing.
Proof. unfold missing_codes. intros ->. by eexists. Qed.

End CodeSets.

(** ** Merger *)

Section Merger.

Lemma matching_notes_cons key r (right : list (cell * cell)) :
  matching_notes key (r :: right) =
  if decide (number_of r.1 = number_of key) then r.2 :: matching_notes key right
  else matching_notes key right.
Proof. unfold matching_notes. rewrite filter_cons. by case_decide. Qed.

Lemma matching_notes_nil key (right : list (cell * cell)) :
  (∀ code score, (code, score) ∈ right → number_of code ≠ number_of key) →
  matching_notes key right = [].
Proof.
  induction right as [|[code score] right IH]; [done|].
  intros Hall. rewrite matching_notes_cons.
  rewrite decide_False by (by apply (Hall code score); left).
  apply IH. intros code' score' Hin. apply (Hall code' score'). by right.
Qed.

Lemma matching_notes_NoDup key (right : list (cell * cell)) :
  NoDup (number_of <$> right.*1) → length (matching_notes key right) ≤ 1.
Proof.
  induction right as [|[code score] right IH]; [simpl; lia|].
  rewrite !fmap_cons. intros [Hnotin Hnodup]%NoDup_cons.
  rewrite matching_notes_cons. simpl in *. case_decide as Hkey.
  - rewrite matching_notes_nil; [simpl; lia|].
    intros code' score' Hin Heq. apply Hnotin. rewrite Hkey, <- Heq.
    apply list_elem_of_fmap. exists code'. split; [done|].
    apply list_elem_of_fmap. by exists (code', score').
  - by apply IH.
Qed.

Lemma note_for_match key (right : list (cell * cell)) code score :
  NoDup (number_of <$> right.*1) →
  (code, score) ∈ right → number_of code = number_of key →
  note_for key right = score.
Proof.
  intros Hnodup Hin Hkey. pose proof (matching_notes_NoDup key right Hnodup) as Hlen.
  assert (score ∈ matching_notes key right) as Hscore.
  { unfold matching_notes. apply list_elem_of_fmap. exists (code, score).
    split; [done|]. by apply list_elem_of_filter. }
  unfold note_for. destruct (matching_notes key right) as [|n [|n' ns]]; simpl in *.
  - inversion Hscore.
  - by apply list_elem_of_singleton in Hscore as ->.
  - lia.
Qed.

Lemma note_for_no_match key (right : list (cell * cell)) :
  (∀ code score, (code, score) ∈ right → number_of code ≠ number_of key) →
  note_for key right = CNaN.
Proof. intros Hall. unfold note_for. by rewrite matching_notes_nil. Qed.

(** With at most one grade row per key, the left join keeps the rows of the
    left table as they are and gives each its note. *)
Lemma merge_rows_NoDup j (left : raw_table) (right : list (cell * cell)) :
  NoDup (number_of <$> right.*1) →
  merge_rows j left right =
  (λ row, row ++ [note_for (cell_at j row) right]) <$> left.
Proof.
  intros Hnodup. unfold merge_rows.
  induction left as [|row left IH]; [done|].
  rewrite bind_cons, fmap_cons, IH. unfold note_for.
  pose proof (matching_notes_NoDup (cell_at j row) right Hnodup) as Hlen.
  destruct (matching_notes (cell_at j row) right) as [|n [|n' ns]]; simpl in *;
    [done | done | lia].
Qed.

Lemma merge_labels_Returned (left : list cell) :
  ¬ labels_clash left →
  ∃ labels, merge_labels left = Returned labels.
Proof.
  intros Hnot. unfold merge_labels. repeat case_bool_decide; try by eexists.
  destruct Hnot. by split.
Qed.

Lemma merge_Returned (left : frame) right j :
  column_positions (CStr "A:Code") (columns left) = [j] →
  ¬ labels_clash (columns left) →
  ∃ labels, merge_labels (columns left) = Returned labels ∧
    merge left right =
    Returned {| columns := labels; rows := merge_rows j (rows left) right |}.
Proof.
  intros Hj Hnot. destruct (merge_labels_Returned _ Hnot) as [labels Hlabels].
  exists labels. split; [done|]. unfold merge. by rewrite Hj, Hlabels.
Qed.

Lemma code_note_Returned (cleaned_csv : frame) c n :
  column_index "A:Code" cleaned_csv = Some c →
  column_index "Note" cleaned_csv = Some n →
  code_note cleaned_csv =
  Returned (zip (column c (rows cleaned_csv)) (column n (rows cleaned_csv))).
Proof. unfold code_note. by intros -> ->. Qed.

Lemma fst_zip_columns c n (table : raw_table) :
  (zip (column c table) (column n table)).*1 = column c table.
Proof. apply fst_zip. by rewrite !length_column. Qed.

End Merger.

(** ** The workbook *)

Section Workbook.

Lemma lookup_write_row (r c : nat) (cells : list cell) (s : sheet) (i j : nat) :
  write_row r c cells s !! (i, j) =
  if decide (i = r ∧ c ≤ j) then
    match cells !! (j - c) with
    | Some x => Some x
    | None => s !! (i, j)
    end
  else s !! (i, j).
Proof.
  revert c. induction cells as [|x cells IH]; intros c; simpl.
  - by case_decide.
  - destruct (decide ((r, c) = (i, j))) as [[= -> ->]|Hne].
    + rewrite lookup_insert_eq, decide_True by lia. by rewrite Nat.sub_diag.
    + rewrite lookup_insert_ne by done. rewrite IH.
      destruct (decide (i = r ∧ S c ≤ j)) as [[-> Hle]|Hout].
      * rewrite decide_True by lia.
        replace (j - c) with (S (j - S c)) by lia. done.
      * destruct (decide (i = r ∧ c ≤ j)) as [[-> Hle]|]; [|done].
        exfalso. assert (j ≠ c) by congruence. apply Hout. lia.
Qed.

Lemma lookup_write_rows (r : nat) (table : raw_table) (s : sheet) (i j : nat) :
  write_rows r table s !! (i, j) =
  if decide (r ≤ i) then
    match table !! (i - r) ≫= (.!! j) with
    | Some x => Some x
    | None => s !! (i, j)
    end
  else s !! (i, j).
Proof.
  revert r. induction table as [|row table IH]; intros r; simpl.
  - by case_decide.
  - rewrite lookup_write_row, IH, Nat.sub_0_r.
    destruct (decide (i = r)) as [->|Hne].
    + rewrite decide_True by lia. rewrite decide_False by lia.
      rewrite decide_True by lia. by rewrite Nat.sub_diag.
    + rewrite (decide_False (P := i = r ∧ 0 ≤ j)) by lia.
      destruct (decide (S r ≤ i)).
      * rewrite decide_True by lia.
        replace (i - r) with (S (i - S r)) by lia. done.
      * by rewrite decide_False by lia.
Qed.

(** Reading the written block back, an empty cell being NaN. *)
Lemma sheet_cell_write_rows_in (r : nat) (table : raw_table) (s : sheet)
    (k : nat) row (i j : nat) :
  i = r + k →
  table !! k = Some row →
  (∀ j', s !! (i, j') = None) →
  sheet_cell (write_rows r table s) i j = cell_at j row.
Proof.
  intros -> Hrow Hfresh. unfold sheet_cell, cell_at.
  rewrite lookup_write_rows, decide_True by lia.
  replace (r + k - r) with k by lia. rewrite Hrow. simpl.
  destruct (row !! j); [done|]. by rewrite Hfresh.
Qed.

Lemma lookup_write_rows_lt (r : nat) (table : raw_table) (s : sheet) (i j : nat) :
  i < r → write_rows r table s !! (i, j) = s !! (i, j).
Proof. intros Hlt. rewrite lookup_write_rows. by rewrite decide_False by lia. Qed.

Lemma lookup_write_rows_ge (r : nat) (table : raw_table) (s : sheet) (i j : nat) :
  r + length table ≤ i → write_rows r table s !! (i, j) = s !! (i, j).
Proof.
  intros Hge. rewrite lookup_write_rows. case_decide; [|done].
  by rewrite (lookup_ge_None_2 table) by lia.
Qed.

Lemma raw_empty_rows (table : raw_table) (i : nat) row (j : nat) :
  raw_empty table = true → table !! i = Some row → row !! j = None.
Proof.
  unfold raw_empty. intros [Hlen|Hwidth]%bool_decide_eq_true Hrow.
  - destruct table; simplify_eq/=.
  - assert (length row ≤ width table) as Hle.
    { unfold width. apply max_list_elem_of_le, list_elem_of_fmap.
      exists row. split; [done|]. by apply list_elem_of_lookup_2 in Hrow. }
    apply lookup_ge_None_2. lia.
Qed.

End Workbook.

(** ** Final export *)

Section FinalExport.
Context {pd : Pandas}.

(** The workbook that [generate_final_excel] builds from a stored roster
    and preamble. *)
Lemma generate_final_excel_layout cleaned_csv st roster pre right final_df :
  original_data st = Some roster →
  header_rows st = Some pre →
  code_note cleaned_csv = Returned right →
  merge roster right = Returned final_df →
  ∃ final_file,
    generate_final_excel cleaned_csv st = Outcome (Some final_file) st [] ∧
    (∀ i row j, pre !! i = Some row → sheet_cell final_file i j = cell_at j row) ∧
    (∀ j, sheet_cell final_file (length pre) j = cell_at j (columns final_df)) ∧
    (∀ i row j, rows final_df !! i = Some row →
       sheet_cell final_file (S (length pre) + i) j = cell_at j row) ∧
    (∀ i j, S (length pre) + length (rows final_df) ≤ i →
       final_file !! (i, j) = None).
Proof.
  intros Hroster Hpre Hright Hmerge. unfold generate_final_excel.
  rewrite Hroster, Hright. simpl. rewrite Hmerge. simpl. rewrite Hpre.
  set (book := if negb (raw_empty pre) then write_rows 0 pre ∅ else ∅).
  assert (∀ i j, length pre ≤ i → book !! (i, j) = None) as Hbelow.
  { intros i j Hle. unfold book. destruct (raw_empty pre); simpl; [done|].
    by rewrite lookup_write_rows_ge by lia. }
  exists (write_rows (length pre) (columns final_df :: rows final_df) book).
  split; [reflexivity|]. repeat split.
  - intros i row j Hrow. pose proof (lookup_lt_Some _ _ _ Hrow) as Hlt.
    unfold sheet_cell. rewrite lookup_write_rows_lt by done.
    unfold book, cell_at. destruct (raw_empty pre) eqn:Hempty; simpl.
    + by rewrite lookup_empty, (raw_empty_rows pre i row j).
    + rewrite lookup_write_rows, decide_True, Nat.sub_0_r, Hrow by lia. simpl.
      destruct (row !! j); [done|]. by rewrite lookup_empty.
  - intros j. apply (sheet_cell_write_rows_in _ _ _ 0); [lia | done |].
    intros j'. apply Hbelow. lia.
  - intros i row j Hrow.
    apply (sheet_cell_write_rows_in _ _ _ (S i)); [lia | done |].
    intros j'. apply Hbelow. lia.
  - intros i j Hle. rewrite lookup_write_rows_ge by (simpl; lia).
    apply Hbelow. lia.
Qed.

(** C3. After a spreadsheet whose header row is at index [k] has been
    processed, the stored preamble is the first [k] rows of the spreadsheet,
    and for every merged table the final export holds these [k] rows, cell
    for cell, at rows 0 to [k-1], the labels of the merged table at row [k]
    and its rows from row [k+1] on. *)
Theorem final_export_layout (df : raw_table) (st0 : session_state)
    (roster : frame) (pre : raw_table) (cleaned_csv : frame)
    (right : list (cell * cell)) (final_df : frame) :
  result (process_excel (Returned df) st0) = Some (roster, pre) →
  code_note cleaned_csv = Returned right →
  merge roster right = Returned final_df →
  ∃ k final_file,
    find_header_row df required_terms = Some k ∧
    pre = take k df ∧ length pre = k ∧
    header_rows (state (process_excel (Returned df) st0)) = Some pre ∧
    result (generate_final_excel cleaned_csv
              (state (process_excel (Returned df) st0))) = Some final_file ∧
    (∀ i row j, i < k → df !! i = Some row →
       sheet_cell final_file i j = cell_at j row) ∧
    (∀ j, sheet_cell final_file k j = cell_at j (columns final_df)) ∧
    (∀ i row j, rows final_df !! i = Some row →
       sheet_cell final_file (S k + i) j = cell_at j row) ∧
    (∀ i j, S k + length (rows final_df) ≤ i → final_file !! (i, j) = None).
Proof.
  intros Hexcel Hright Hmerge.
  destruct (process_excel_Some _ _ _ _ Hexcel)
    as (df' & k & j & header & [= <-] & Hfind & Hheader & Hpre & _ & _ & _ & _
        & Hstate & _).
  assert (length pre = k) as Hlen.
  { rewrite Hpre, length_take. apply lookup_lt_Some in Hheader. lia. }
  rewrite Hstate.
  destruct (generate_final_excel_layout cleaned_csv
              {| original_data := Some roster; header_rows := Some pre |}
              roster pre right final_df eq_refl eq_refl Hright Hmerge)
    as (final_file & Hfile & Hrows & Hlabels & Hbody & Hend).
  exists k, final_file. rewrite Hfile, Hlen in *. simpl.
  repeat split; try done.
  intros i row c Hlt Hrow. apply Hrows. by rewrite Hpre, lookup_take_lt.
Qed.

End FinalExport.

(** ** Left join of the roster with the grades *)

Section LeftJoin.
Context {pd : Pandas}.

(** C2, as amended. For a stored roster (which does not already hold a
    column [Note] together with a column [Note_x] or a column [Note_y],
    the labels that the merge gives to the two [Note] columns) and a grade
    table that [process_csv] has validated, whatever anomalies it reported:
    when no code occurs in two rows of the grade table, the left join has
    exactly one row per roster row, in order; each is the roster row
    followed by the note of the grade row with the same code, or by a
    missing note when no grade row has this code; and the second tab
    produces the final file from it. *)
Theorem left_join_one_row_per_roster_row (file : raising frame)
    (st : session_state) (roster : frame) (pre : raw_table) (j : nat)
    (cleaned_csv : frame) (anomalies : list string) (c : nat) :
  original_data st = Some roster →
  header_rows st = Some pre →
  column_positions (CStr "A:Code") (columns roster) = [j] →
  ¬ labels_clash (columns roster) →
  result (process_csv file st) = Some (cleaned_csv, anomalies) →
  column_index "A:Code" cleaned_csv = Some c →
  NoDup (number_of <$> column c (rows cleaned_csv)) →
  ∃ right final_df final_file,
    code_note cleaned_csv = Returned right ∧
    merge roster right = Returned final_df ∧
    length (rows final_df) = length (rows roster) ∧
    (∀ i row, rows roster !! i = Some row →
       ∃ note, rows final_df !! i = Some (row ++ [note]) ∧
         (∀ code score, (code, score) ∈ right →
            number_of code = number_of (cell_at j row) → note = score) ∧
         ((∀ code score, (code, score) ∈ right →
             number_of code ≠ number_of (cell_at j row)) → note = CNaN)) ∧
    result (generate_final_excel cleaned_csv st) = Some final_file ∧
    tab2 file st = Some final_file.
Proof.
  intros Hroster Hpre Hj Hlabels Hcsv Hc Hnodup.
  destruct (process_csv_Some _ _ _ _ Hcsv)
    as (df & c' & n & -> & _ & Hc' & Hn & _ & Hcleaned & _).
  assert (column_index "Note" cleaned_csv = Some n) as Hn'.
  { rewrite <- Hn. apply column_index_columns. by rewrite Hcleaned. }
  pose proof (code_note_Returned cleaned_csv c n Hc Hn') as Hright.
  set (right := zip (column c (rows cleaned_csv)) (column n (rows cleaned_csv))) in *.
  assert (NoDup (number_of <$> right.*1)) as Hkeys.
  { unfold right. by rewrite fst_zip_columns. }
  destruct (merge_Returned roster right j Hj Hlabels) as (labels & _ & Hmerge).
  rewrite merge_rows_NoDup in Hmerge by done.
  destruct (generate_final_excel_layout _ _ _ _ _ _ Hroster Hpre Hright Hmerge)
    as (final_file & Hfile & _).
  eexists right, _, final_file. split; [done|]. split; [exact Hmerge|].
  simpl. split; [by rewrite length_fmap|]. split; [|split].
  - intros i row Hrow. exists (note_for (cell_at j row) right). split.
    + by rewrite list_lookup_fmap, Hrow.
    + split.
      * intros code score Hin Hkey. by eapply note_for_match.
      * apply note_for_no_match.
  - by rewrite Hfile.
  - unfold tab2. by rewrite Hroster, Hcsv, Hfile.
Qed.

End LeftJoin.

(** ** Anomalies of a grade file *)

Section Anomalies.
Context {pd : Pandas}.

Lemma last_char_app s t : t ≠ "" → last_char (s +:+ t) = last_char t.
Proof.
  intros Ht. induction s as [|a s IH]; [done|].
  simpl. rewrite IH. destruct (s +:+ t) eqn:Hst; [|done].
  destruct s; simpl in Hst; [done | discriminate].
Qed.

Lemma flag_not_count_report n text a :
  text ≠ "" → last_char text = Some a → a ≠ "]"%char →
  "Notes hors intervalle [0-20]" ∉ count_report n text.
Proof.
  intros Htext Hlast Ha. unfold count_report. case_bool_decide; [by inversion 1|].
  intros Hin. apply list_elem_of_singleton in Hin.
  apply (f_equal last_char) in Hin. rewrite last_char_app, Hlast in Hin by done.
  simpl in Hin. congruence.
Qed.

(** What a successful run has done, read on the validated table. *)
Lemma process_csv_cleaned file st cleaned_csv anomalies c n :
  result (process_csv file st) = Some (cleaned_csv, anomalies) →
  column_index "A:Code" cleaned_csv = Some c →
  column_index "Note" cleaned_csv = Some n →
  ∃ df,
    file = Returned df ∧
    column_index "A:Code" df = Some c ∧
    column_index "Note" df = Some n ∧
    column c (rows cleaned_csv) = coerce <$> column c (rows df) ∧
    column n (rows cleaned_csv) = coerce <$> column n (rows df) ∧
    detect_anomalies (column n (rows cleaned_csv)) (column c (rows cleaned_csv)) st
      = Returned anomalies.
Proof.
  intros Hcsv Hc Hn.
  destruct (process_csv_Some _ _ _ _ Hcsv)
    as (df & c' & n' & -> & _ & Hc' & Hn' & _ & Hcleaned & Hcode & Hnote & Hdetect & _).
  assert (columns cleaned_csv = columns df) as Hcolumns by by rewrite Hcleaned.
  rewrite (column_index_columns _ _ _ Hcolumns) in Hc.
  rewrite (column_index_columns _ _ _ Hcolumns) in Hn.
  assert (c' = c) as -> by congruence. assert (n' = n) as -> by congruence.
  by exists df.
Qed.

(** A grade file with the required columns is validated to the end,
    whatever its cells hold. *)
Lemma process_csv_returns grades st :
  (∀ col, col ∈ required_columns → CStr col ∈ columns grades) →
  roster_invariant st →
  ∃ cleaned_csv anomalies,
    process_csv (Returned grades) st =
    {| result := Some (cleaned_csv, anomalies); state := st; shown := [] |}.
Proof.
  intros Hrequired Hst. unfold process_csv.
  assert (filter (λ col, CStr col ∉ columns grades) required_columns = []) as ->.
  { destruct (filter _ _) as [|col cols] eqn:Hfilter; [done|].
    assert (col ∈ filter (λ col, CStr col ∉ columns grades) required_columns)
      as [Hnot Hin]%list_elem_of_filter by (rewrite Hfilter; left).
    destruct Hnot. by apply Hrequired. }
  rewrite bool_decide_eq_true_2 by done.
  destruct (column_index_is_Some "A:Code" grades) as [c ->].
  { apply Hrequired. by_evaluation. }
  destruct (column_index_is_Some "Note" grades) as [n ->].
  { apply Hrequired. by_evaluation. }
  simpl. unfold detect_anomalies.
  destruct (original_data st) as [original|] eqn:Horiginal; [|by eexists _, _].
  destruct (Hst original Horiginal) as [j Hj].
  destruct (missing_codes_is_Returned original
              (column c (to_numeric_column n (to_numeric_column c (rows grades))))
              j Hj) as [missing ->].
  by eexists _, _.
Qed.

Lemma elem_of_coerce (cells : list cell) q :
  CNum q ∈ coerce <$> cells ↔ ∃ value, value ∈ cells ∧ to_numeric value = Some q.
Proof.
  rewrite list_elem_of_fmap. split.
  - intros (value & Hvalue & Hin). exists value. split; [done|].
    unfold coerce in Hvalue. destruct (to_numeric value); simplify_eq/=. done.
  - intros (value & Hin & Hvalue). exists value. split; [|done].
    unfold coerce. by rewrite Hvalue.
Qed.

End Anomalies.

Section AnomalyReports.
Context {pd : Pandas}.

Lemma flag_elem_of_anomalies (note code : list cell) st anomalies :
  detect_anomalies note code st = Returned anomalies →
  "Notes hors intervalle [0-20]" ∈ anomalies ↔ Exists out_of_range note.
Proof.
  intros Hdetect.
  destruct (detect_anomalies_Returned _ _ _ _ Hdetect)
    as (range_part & roster_part & -> & Hrange & Hroster).
  assert ("Notes hors intervalle [0-20]" ∉ roster_part) as Hnot_roster.
  { destruct (original_data st).
    - destruct Hroster as (missing & _ & ->).
      by apply (flag_not_count_report _ _ "V"%char).
    - subst. by inversion 1. }
  pose proof (flag_not_count_report (count_nan note) " notes manquantes" "s"%char)
    as Hnot_note.
  pose proof (flag_not_count_report (count_nan code) " codes étudiants invalides"
                "s"%char) as Hnot_code.
  rewrite !elem_of_app.
  destruct Hrange as [[Hex ->]|[Hex ->]].
  - split; [done|]. intros _. right. left. left.
  - split; [|done]. intros [Hin|[Hin|[Hin|Hin]]].
    + by destruct Hnot_note.
    + inversion Hin.
    + by destruct Hnot_code.
    + done.
Qed.

(** C9. A grade file with the required columns is validated to the end,
    and the out-of-range flag is among its anomalies exactly when some
    score is read as a number strictly below 0 or strictly above 20. A
    score that is absent or that [pd.to_numeric] rejects is read as no
    number: it never raises the flag, and it is counted by the
    missing-score report, the first of the list. *)
Theorem out_of_range_flag_ignores_missing_scores (grades : frame)
    (st : session_state) (n : nat) :
  (∀ col, col ∈ required_columns → CStr col ∈ columns grades) →
  roster_invariant st →
  column_index "Note" grades = Some n →
  ∃ cleaned_csv anomalies rest,
    process_csv (Returned grades) st =
      {| result := Some (cleaned_csv, anomalies); state := st; shown := [] |} ∧
    anomalies =
      count_report (count_unparsable (column n (rows grades))) " notes manquantes"
      ++ rest ∧
    ("Notes hors intervalle [0-20]" ∈ anomalies ↔
     ∃ score q, score ∈ column n (rows grades) ∧ to_numeric score = Some q ∧
       (q < 0 ∨ Q2Qc 20 < q)%Qc).
Proof.
  intros Hrequired Hst Hn.
  destruct (process_csv_returns grades st Hrequired Hst)
    as (cleaned_csv & anomalies & Hrun).
  assert (result (process_csv (Returned grades) st) = Some (cleaned_csv, anomalies))
    as Hcsv by by rewrite Hrun.
  destruct (process_csv_Some _ _ _ _ Hcsv)
    as (df & c & n' & [= <-] & _ & _ & Hn' & _ & _ & _ & Hnote & Hdetect & _).
  assert (n' = n) as -> by congruence.
  pose proof (flag_elem_of_anomalies _ _ _ _ Hdetect) as Hflag.
  destruct (detect_anomalies_Returned _ _ _ _ Hdetect)
    as (range_part & roster_part & Hanomalies & _).
  rewrite Hnote, count_nan_coerce in Hanomalies.
  exists cleaned_csv, anomalies. eexists.
  split; [exact Hrun|]. split; [exact Hanomalies|].
  rewrite Hflag, Hnote, Exists_exists. split.
  - intros (x & Hin & q & -> & Hq). apply elem_of_coerce in Hin as (score & Hin & Hscore).
    by exists score, q.
  - intros (score & q & Hin & Hscore & Hq). exists (CNum q). split.
    + apply elem_of_coerce. by exists score.
    + by exists q.
Qed.

End AnomalyReports.

Section ThreeAnomalies.
Context {pd : Pandas}.




(** What check 4 reports: the number of distinct roster codes that are the
    code of no grade row, plus the number of roster rows without a code. *)
Lemma absent_students_report (grades : frame) (st : session_state)
    (roster : frame) (j c : nat) :
  original_data st = Some roster →
  column_positions (CStr "A:Code") (columns roster) = [j] →
  (∀ col, col ∈ required_columns → CStr col ∈ columns grades) →
  column_index "A:Code" grades = Some c →
  ∃ cleaned_csv anomalies before,
    process_csv (Returned grades) st =
      {| result := Some (cleaned_csv, anomalies); state := st; shown := [] |} ∧
    anomalies =
      before ++
      count_report
        (size (identifiers (column j (rows roster))
               ∖ identifiers (coerce <$> column c (rows grades)))
         + length (filter (λ x, number_of x = None) (column j (rows roster))))
        " étudiants de l'Excel non présents dans le CSV".
Proof.
  intros Hroster Hj Hrequired Hc.
  destruct (process_csv_returns grades st Hrequired)
    as (cleaned_csv & anomalies & Hrun).
  { intros roster' Hroster'. exists j. congruence. }
  assert (result (process_csv (Returned grades) st) = Some (cleaned_csv, anomalies))
    as Hcsv by by rewrite Hrun.
  destruct (process_csv_Some _ _ _ _ Hcsv)
    as (df & c' & n & [= <-] & _ & Hc' & _ & _ & _ & Hcode & _ & Hdetect & _).
  assert (c' = c) as -> by congruence.
  destruct (detect_anomalies_Returned _ _ _ _ Hdetect)
    as (range_part & roster_part & Hanomalies & _ & Hroster_part).
  rewrite Hroster in Hroster_part. destruct Hroster_part as (missing & Hcodes & ->).
  rewrite (missing_codes_len _ _ _ _ Hj Hcodes), Hcode in Hanomalies.
  exists cleaned_csv, anomalies. eexists. split; [exact Hrun|].
  by rewrite Hanomalies, !app_assoc.
Qed.

End ThreeAnomalies.

(** ** Values that are not numbers *)

Section Coercion.
Context {pd : Pandas}.

(** C6. A spreadsheet with a header row, a single code column and rows
    below the header, and a grade file with the required columns, are
    processed to the end whatever their cells hold. In the code column of
    the roster, and in the code and score columns of the grade file, every
    value is replaced by what [pd.to_numeric] reads in it, a missing value
    when it reads no number. The roster's warning carries the number of
    code values read as no number and is absent when there is none; the
    anomalies of the grade file start with the count of such scores, when
    not zero, and hold the count of such codes, when not zero, after the
    out-of-range flag. *)
Theorem unparsable_values_become_missing_and_are_counted
    (df : raw_table) (k j : nat) (header : list cell) (st0 : session_state)
    (grades : frame) (st : session_state) :
  find_header_row df required_terms = Some k →
  df !! k = Some header →
  column_positions (CStr "A:Code") (rename_code <$> header) = [j] →
  drop (S k) df ≠ [] →
  (∀ col, col ∈ required_columns → CStr col ∈ columns grades) →
  roster_invariant st →
  (∀ value, to_numeric value = None → coerce value = CNaN) ∧
  (∃ roster pre,
     result (process_excel (Returned df) st0) = Some (roster, pre) ∧
     column j (rows roster) = coerce <$> column j (drop (S k) df) ∧
     shown (process_excel (Returned df) st0) =
       invalid_codes_warning (count_unparsable (column j (drop (S k) df)))) ∧
  (∃ cleaned_csv anomalies c n range_part roster_part,
     result (process_csv (Returned grades) st) = Some (cleaned_csv, anomalies) ∧
     column_index "A:Code" grades = Some c ∧
     column_index "Note" grades = Some n ∧
     column c (rows cleaned_csv) = coerce <$> column c (rows grades) ∧
     column n (rows cleaned_csv) = coerce <$> column n (rows grades) ∧
     anomalies =
       count_report (count_unparsable (column n (rows grades)))
         " notes manquantes"
       ++ range_part ++
       count_report (count_unparsable (column c (rows grades)))
         " codes étudiants invalides"
       ++ roster_part ∧
     (range_part = [] ∨ range_part = ["Notes hors intervalle [0-20]"]) ∧
     (roster_part = [] ∨
      ∃ m : nat, roster_part =
             [pretty m +:+ " étudiants de l'Excel non présents dans le CSV"])).
Proof.
  intros Hfind Hheader Hj Hrows Hrequired Hst. split; [|split].
  - intros value Hvalue. unfold coerce. by rewrite Hvalue.
  - destruct (process_excel_returns df st0 k header j Hfind Hheader Hj Hrows)
      as (roster & pre & Hexcel).
    destruct (process_excel_Some _ _ _ _ Hexcel)
      as (df' & k' & j' & header' & [= <-] & Hfind' & Hheader' & _ & Hcolumns & Hj'
          & _ & Hrows' & _ & Hshown).
    assert (k' = k) as -> by congruence.
    assert (header' = header) as -> by congruence.
    rewrite Hcolumns, Hj in Hj'. injection Hj' as <-.
    exists roster, pre. repeat split; try done.
    + by rewrite Hrows', column_to_numeric_column.
    + rewrite Hshown. f_equal.
      rewrite filter_isna_rows, Hrows', column_to_numeric_column.
      apply filter_isna_coerce.
  - destruct (process_csv_returns grades st Hrequired Hst)
      as (cleaned_csv & anomalies & Hrun).
    assert (result (process_csv (Returned grades) st) = Some (cleaned_csv, anomalies))
      as Hcsv by by rewrite Hrun.
    destruct (process_csv_Some _ _ _ _ Hcsv)
      as (df' & c & n & [= <-] & _ & Hc & Hn & _ & _ & Hcode & Hnote & Hdetect & _).
    destruct (detect_anomalies_Returned _ _ _ _ Hdetect)
      as (range_part & roster_part & Hanomalies & Hrange & Hroster).
    rewrite Hnote, Hcode, !count_nan_coerce in Hanomalies.
    exists cleaned_csv, anomalies, c, n, range_part, roster_part.
    repeat split; try done.
    + destruct Hrange as [[_ ->]|[_ ->]]; auto.
    + destruct (original_data st); [|by left].
      destruct Hroster as (missing & _ & ->). unfold count_report.
      case_bool_decide; [by left | right; by eexists].
Qed.

End Coercion.

(** ** Fatal conditions *)

Section FatalConditions.
Context {pd : Pandas}.

(** C7. When no row holds the three labels, when no row follows the header
    row, and when required columns of the grade file are missing, the stage
    shows one error (for the grade file, the missing column names in the
    order of the required ones, separated by commas), returns no table and
    leaves the session state as it was: nothing else is shown or done. *)
Theorem fatal_conditions_abort_the_stage (df_no_header df_no_rows : raw_table)
    (k : nat) (df_csv : frame) (st : session_state) :
  find_header_row df_no_header required_terms = None →
  find_header_row df_no_rows required_terms = Some k →
  drop (S k) df_no_rows = [] →
  filter (λ col, CStr col ∉ columns df_csv) required_columns ≠ [] →
  process_excel (Returned df_no_header) st =
    {| result := None; state := st;
       shown := [Error "La ligne contenant 'Code', 'Nom' et 'Prénom' n'a pas été trouvée."] |} ∧
  process_excel (Returned df_no_rows) st =
    {| result := None; state := st;
       shown := [Error "Fichier Excel vide après traitement."] |} ∧
  process_csv (Returned df_csv) st =
    {| result := None; state := st;
       shown := [Error ("Colonnes manquantes : " +:+
                        String.concat ", "
                          (filter (λ col, CStr col ∉ columns df_csv)
                             required_columns))] |}.
Proof.
  intros Hnone Hsome Hrows Hmissing. split; [|split].
  - unfold process_excel. by rewrite Hnone.
  - unfold process_excel. rewrite Hsome.
    rewrite drop_drop, Nat.add_1_r, Hrows. unfold df_empty. simpl.
    rewrite bool_decide_eq_true_2 by by right. done.
  - unfold process_csv. by rewrite bool_decide_eq_false_2.
Qed.

End FatalConditions.

(** ** Session state *)

Section SessionState.
Context {pd : Pandas}.

(** C8. A run of [process_excel] that succeeds on a file gives, when it is
    run again on the same file in the session it has left, the same roster
    and preamble, the same warnings and the same session state. *)
Theorem process_excel_run_twice (file : raising raw_table) (st : session_state)
    (roster : frame) (pre : raw_table) :
  result (process_excel file st) = Some (roster, pre) →
  process_excel file (state (process_excel file st)) =
    {| result := Some (roster, pre);
       state := state (process_excel file st);
       shown := shown (process_excel file st) |} ∧
  ∀ st', result (process_excel file st') = Some (roster, pre).
Proof.
  intros Hrun.
  assert (∀ st', result (process_excel file st') = Some (roster, pre)
                 ∧ shown (process_excel file st') = shown (process_excel file st)
                 ∧ state (process_excel file st') = state (process_excel file st))
    as Hany.
  { intros st'. destruct file as [e|df]; [done|]. revert Hrun. unfold process_excel.
    destruct (find_header_row df required_terms) as [k|]; [|done].
    destruct (df_empty _); [done|].
    destruct (column_positions _ _) as [|j [|j' js]]; done. }
  split; [|intros st'; apply Hany].
  destruct (Hany (state (process_excel file st))) as (Hresult & Hshown & Hstate).
  destruct (process_excel file (state (process_excel file st))) as [r s m].
  simpl in *. by subst.
Qed.

(** C10. [process_excel] replaces the stored roster and preamble exactly
    when it returns them: the session state after a run that returns
    nothing is the state before it, and a run that reads no table, finds no
    header row or finds no row below it returns nothing. *)
Theorem session_state_replaced_only_on_success (file : raising raw_table)
    (st : session_state) :
  state (process_excel file st) =
    match result (process_excel file st) with
    | Some (roster, pre) =>
        {| original_data := Some roster; header_rows := Some pre |}
    | None => st
    end ∧
  ((∃ e, file = Raised e) ∨
   (∃ df, file = Returned df ∧
      (find_header_row df required_terms = None ∨
       ∃ k, find_header_row df required_terms = Some k ∧ drop (S k) df = [])) →
   result (process_excel file st) = None ∧ state (process_excel file st) = st).
Proof.
  split.
  - destruct file as [e|df]; [done|]. unfold process_excel.
    destruct (find_header_row df required_terms) as [k|]; [|done].
    destruct (df_empty _); [done|].
    destruct (column_positions _ _) as [|j [|j' js]]; done.
  - intros [[e ->]|(df & -> & [Hnone|(k & Hsome & Hrows)])]; [done| |].
    + unfold process_excel. by rewrite Hnone.
    + unfold process_excel. rewrite Hsome.
      rewrite drop_drop, Nat.add_1_r, Hrows. unfold df_empty. simpl.
      rewrite bool_decide_eq_true_2 by by right. done.
Qed.

End SessionState.

(** * Scenarios *)

Section Scenarios.

(** The labels are compared as whole texts, letter case included, and the
    first of two rows that hold them is the one returned. *)
Example find_header_row_exact_text :
  find_header_row (pd := integers) sheet_without_header required_terms = None ∧
  find_header_row (pd := integers) sheet_with_two_headers required_terms = Some 1.
Proof. split; vm_compute; reflexivity. Qed.

(** Three rows above the header row: they are rows 0 to 2 of the final
    file, the labels of the merged table are row 3 and the grades follow. *)
Lemma promotion_export_scenario :
  ∃ final_file,
    find_header_row (pd := integers) promotion_sheet required_terms = Some 3 ∧
    header_rows (session_after promotion_sheet) = Some (take 3 promotion_sheet) ∧
    result (generate_final_excel promotion_grades (session_after promotion_sheet))
      = Some final_file ∧
    (∀ i row j, i < 3 → promotion_sheet !! i = Some row →
       sheet_cell final_file i j = cell_at j row) ∧
    sheet_cell final_file 3 0 = CStr "A:Code" ∧
    sheet_cell final_file 3 3 = CStr "Note" ∧
    sheet_cell final_file 4 3 = num 15 ∧
    sheet_cell final_file 5 3 = num 22.
Proof.
  edestruct (final_export_layout (pd := integers) promotion_sheet initial_state)
    with (cleaned_csv := promotion_grades)
    as (k & final_file & Hfind & Hpre & Hlen & Hstored & Hfile & Hrows & Hlabels
        & Hbody & _).
  - vm_compute. reflexivity.
  - vm_compute. reflexivity.
  - vm_compute. reflexivity.
  - vm_compute in Hfind. injection Hfind as <-.
    exists final_file.
    split; [reflexivity|]. split; [exact Hstored|]. split; [exact Hfile|].
    split; [exact Hrows|]. split; [exact (Hlabels 0)|].
    split; [exact (Hlabels 3)|].
    split; [exact (Hbody 0 _ 3 eq_refl) | exact (Hbody 1 _ 3 eq_refl)].
Defined.

(** The roster of Dupont and Martin with the grades 15 and 22: the
    out-of-range grade is reported and the merge is produced all the same. *)
Lemma promotion_merge_scenario :
  ∃ final_df final_file,
    result (process_csv (pd := integers) (Returned promotion_grades)
              (session_after promotion_sheet))
      = Some (promotion_grades, ["Notes hors intervalle [0-20]"]) ∧
    rows final_df =
      [ [num 1; CStr "Dupont"; CStr "Jean"; num 15];
        [num 2; CStr "Martin"; CStr "Luc"; num 22] ] ∧
    tab2 (pd := integers) (Returned promotion_grades)
      (session_after promotion_sheet) = Some final_file.
Proof.
  edestruct (left_join_one_row_per_roster_row (pd := integers)
               (Returned promotion_grades) (session_after promotion_sheet))
    as (right & final_df & final_file & Hright & Hmerge & Hlen & Hnotes & Hfile
        & Htab).
  - vm_compute. reflexivity.
  - vm_compute. reflexivity.
  - vm_compute. reflexivity.
  - unfold labels_clash. apply (proj1 (bool_decide_eq_false _)).
    vm_compute. reflexivity.
  - vm_compute. reflexivity.
  - vm_compute. reflexivity.
  - by_evaluation.
  - vm_compute in Hright. injection Hright as <-.
    vm_compute in Hmerge. injection Hmerge as Hfinal.
    exists final_df, final_file. split; [vm_compute; reflexivity|].
    split; [by rewrite <- Hfinal | exact Htab].
Defined.

(** Grades that hold two rows for the only student of the roster: the
    grade table is validated without anomaly, its codes are codes of the
    roster, and the left join has two rows for a roster of one. *)
Lemma left_join_repeats_roster_row :
  original_data (session_after sheet_of_dupont) = Some roster_of_dupont ∧
  result (process_csv (pd := integers) (Returned grades_with_two_rows)
            (session_after sheet_of_dupont))
    = Some (grades_with_two_rows, []) ∧
  (∀ code, code ∈ column 0 (rows grades_with_two_rows) →
           code ∈ column 0 (rows roster_of_dupont)) ∧
  ∃ right final_df,
    code_note grades_with_two_rows = Returned right ∧
    merge roster_of_dupont right = Returned final_df ∧
    length (rows roster_of_dupont) = 1 ∧
    length (rows final_df) = 2 ∧
    rows final_df =
      [ [num 1; CStr "Dupont"; CStr "Jean"; num 15];
        [num 1; CStr "Dupont"; CStr "Jean"; num 16] ].
Proof.
  split; [|split; [|split]].
  - vm_compute. reflexivity.
  - vm_compute. reflexivity.
  - intros code Hin. vm_compute in Hin. vm_compute.
    apply elem_of_cons in Hin as [->|Hin]; [left|].
    apply elem_of_cons in Hin as [->|Hin]; [left|]. inversion Hin.
  - eexists _, _. repeat split; vm_compute; reflexivity.
Qed.

(** C5, as the code has it. A roster in which one student has no code, and
    grades for every student that has one: no code of the roster is absent
    from the grade file, and [process_csv] reports one absent student, the
    roster row without a code. *)
Lemma roster_row_without_code_is_reported_absent :
  ∃ roster,
    original_data (session_after sheet_with_empty_code) = Some roster ∧
    column 0 (rows roster) = [num 1; CNaN] ∧
    column 0 (rows grades_of_dupont) = [num 1] ∧
    result (process_csv (pd := integers) (Returned grades_of_dupont)
              (session_after sheet_with_empty_code))
      = Some (grades_of_dupont,
              ["1 étudiants de l'Excel non présents dans le CSV"]).
Proof. eexists. repeat split; vm_compute; reflexivity. Qed.


(** A text and an empty cell as codes of the roster; a text as a code and
    a text as a score in the grade file. *)
Lemma text_values_scenario :
  ∃ roster pre cleaned_csv,
    process_excel (pd := integers) (Returned sheet_with_text_code) initial_state
      = {| result := Some (roster, pre);
           state := {| original_data := Some roster; header_rows := Some pre |};
           shown := [Warning "2 codes étudiants invalides détectés"] |} ∧
    column 0 (rows roster) = [num 1; CNaN; CNaN] ∧
    result (process_csv (pd := integers) (Returned grades_with_text)
              (session_after sheet_with_text_code))
      = Some (cleaned_csv,
              ["1 notes manquantes"; "1 codes étudiants invalides";
               "2 étudiants de l'Excel non présents dans le CSV"]) ∧
    column 0 (rows cleaned_csv) = [num 1; CNaN] ∧
    column 3 (rows cleaned_csv) = [CNaN; num 12].
Proof.
  destruct (unparsable_values_become_missing_and_are_counted (pd := integers)
              sheet_with_text_code 0 0 [CStr "Code"; CStr "Nom"; CStr "Prénom"]
              initial_state grades_with_text (session_after sheet_with_text_code))
    as (_ & (roster & pre & Hexcel & Hcodes & Hshown)
          & (cleaned_csv & anomalies & c & n & range_part & roster_part & Hcsv
             & Hc & Hn & Hcode & Hnote & _)).
  - vm_compute. reflexivity.
  - reflexivity.
  - vm_compute. reflexivity.
  - discriminate.
  - apply Forall_forall. by_evaluation.
  - apply roster_invariant_process_excel, roster_invariant_initial.
  - vm_compute in Hc, Hn. injection Hc as <-. injection Hn as <-.
    exists roster, pre, cleaned_csv.
    split; [|split; [exact Hcodes|split; [|split; [exact Hcode|exact Hnote]]]].
    + vm_compute in Hexcel. injection Hexcel as <- <-. vm_compute. reflexivity.
    + vm_compute in Hcsv. injection Hcsv as <- _. vm_compute. reflexivity.
Defined.

(** Labels in lower case, a header row that ends the spreadsheet, and a
    grade file with two of the required columns, in a session that holds a
    roster. *)
Lemma fatal_conditions_scenario :
  process_excel (pd := integers) (Returned sheet_without_header)
    (session_after promotion_sheet) =
    {| result := None; state := session_after promotion_sheet;
       shown := [Error "La ligne contenant 'Code', 'Nom' et 'Prénom' n'a pas été trouvée."] |} ∧
  process_excel (pd := integers) (Returned sheet_without_students)
    (session_after promotion_sheet) =
    {| result := None; state := session_after promotion_sheet;
       shown := [Error "Fichier Excel vide après traitement."] |} ∧
  process_csv (pd := integers) (Returned grades_without_note)
    (session_after promotion_sheet) =
    {| result := None; state := session_after promotion_sheet;
       shown := [Error "Colonnes manquantes : Prénom, Note"] |}.
Proof.
  apply (fatal_conditions_abort_the_stage (pd := integers)
           sheet_without_header sheet_without_students 1 grades_without_note
           (session_after promotion_sheet)).
  - vm_compute. reflexivity.
  - vm_compute. reflexivity.
  - reflexivity.
  - intros Hnil. vm_compute in Hnil. discriminate.
Defined.

(** The same spreadsheet processed twice in a row. *)
Lemma promotion_twice_scenario :
  ∃ roster pre,
    result (process_excel (pd := integers) (Returned promotion_sheet)
              initial_state) = Some (roster, pre) ∧
    process_excel (pd := integers) (Returned promotion_sheet)
      (session_after promotion_sheet) =
      {| result := Some (roster, pre);
         state := session_after promotion_sheet;
         shown := [] |}.
Proof.
  eexists _, _. split.
  - vm_compute. reflexivity.
  - refine (proj1 (process_excel_run_twice (pd := integers)
                     (Returned promotion_sheet) initial_state _ _ _)).
    vm_compute. reflexivity.
Defined.

(** The missing score of the group's grades is counted, and the flag is
    raised by the score of 21 alone. *)
Lemma group_flag_scenario :
  ∃ cleaned_csv anomalies rest,
    process_csv (pd := integers) (Returned group_grades)
      (session_after group_sheet) =
      {| result := Some (cleaned_csv, anomalies);
         state := session_after group_sheet; shown := [] |} ∧
    anomalies = "1 notes manquantes" :: rest ∧
    ("Notes hors intervalle [0-20]" ∈ anomalies ↔
     ∃ score q, score ∈ [CNaN; CStr "21"] ∧
       to_numeric (pd := integers) score = Some q ∧ (q < 0 ∨ Q2Qc 20 < q)%Qc).
Proof.
  apply (out_of_range_flag_ignores_missing_scores (pd := integers) group_grades
           (session_after group_sheet) 3).
  - apply Forall_forall. by_evaluation.
  - apply roster_invariant_process_excel, roster_invariant_initial.
  - vm_compute. reflexivity.
Defined.

End Scenarios.

(** * Further properties *)

(** ** The session over reruns *)

Section Sessions.
Context {pd : Pandas}.

Lemma process_excel_None_state file st :
  result (process_excel file st) = None → state (process_excel file st) = st.
Proof.
  destruct file as [e|df]; [done|]. unfold process_excel.
  destruct (find_header_row df required_terms) as [k|]; [|done].
  destruct (df_empty _); [done|].
  destruct (column_positions _ _) as [|j [|j' js]]; done.
Qed.

Lemma numeric_or_nan_coerce c : numeric_or_nan (coerce c).
Proof. unfold coerce. destruct (to_numeric c); [right; by eexists | by left]. Qed.

Lemma rename_code_not_Code (header : list cell) : CStr "Code" ∉ rename_code <$> header.
Proof.
  intros (c & Hc & _)%list_elem_of_fmap. unfold rename_code in Hc.
  case_bool_decide; congruence.
Qed.

Lemma process_excel_stored_ok file st roster pre :
  result (process_excel file st) = Some (roster, pre) → stored_ok roster pre.
Proof.
  intros Hrun.
  destruct (process_excel_Some _ _ _ _ Hrun)
    as (df & k & j & header & -> & Hfind & Hheader & -> & Hcolumns & Hj & Hrows
        & Hroster & _).
  repeat split.
  - exists j. split; [done|]. rewrite Hroster, column_to_numeric_column.
    apply Forall_fmap, Forall_forall. intros c _. apply numeric_or_nan_coerce.
  - rewrite Hcolumns. apply rename_code_not_Code.
  - rewrite Hroster. unfold to_numeric_column. by destruct (drop (S k) df).
  - apply find_header_row_from_Some in Hfind
      as (k' & row & Hk & _ & _ & Hfirst). simpl in Hk. subst k'.
    apply Forall_forall. intros row' Hin.
    apply list_elem_of_lookup in Hin as [i Hi].
    pose proof (lookup_lt_Some _ _ _ Hi) as Hlt. rewrite length_take in Hlt.
    apply (Hfirst i); [lia|]. by rewrite lookup_take_lt in Hi by lia.
Qed.

Lemma session_ok_process_excel file st :
  session_ok st → session_ok (state (process_excel file st)).
Proof.
  intros Hst. destruct (result (process_excel file st)) as [[roster pre]|] eqn:Hrun.
  - pose proof (process_excel_stored_ok _ _ _ _ Hrun) as Hstored.
    destruct (process_excel_Some _ _ _ _ Hrun)
      as (df & k & j & header & _ & _ & _ & _ & _ & _ & _ & _ & -> & _).
    done.
  - by rewrite process_excel_None_state.
Qed.

Lemma session_ok_roster_invariant st : session_ok st → roster_invariant st.
Proof.
  unfold session_ok. intros Hst roster Hroster. rewrite Hroster in Hst.
  destruct (header_rows st); [|done].
  destruct Hst as ((j & Hj & _) & _). by exists j.
Qed.

(** X1. Whatever is uploaded, rerun after rerun, the session that starts
    empty holds either nothing or a roster with its preamble, and then: the
    roster has exactly one column [A:Code], whose cells are numbers or
    missing values, no column [Code], and at least one row; and no row of
    the preamble holds the three labels. *)
Theorem every_session_is_well_formed
    (reruns : list (option (raising raw_table) * option (raising frame))) :
  session_ok (session reruns initial_state).
Proof.
  assert (∀ st, session_ok st → session_ok (session reruns st)) as Hany.
  { induction reruns as [|[uploaded_excel uploaded_csv] reruns IH]; [done|].
    intros st Hst. simpl. apply IH.
    destruct uploaded_excel as [file|]; simpl; [|done].
    by apply session_ok_process_excel. }
  by apply Hany.
Qed.

End Sessions.

(** ** When a spreadsheet is accepted *)

Section Acceptance.
Context {pd : Pandas}.

Lemma length_column_positions label (labels : list cell) :
  length (column_positions label labels) = length (filter (λ c, c = label) labels).
Proof.
  unfold column_positions. rewrite length_fmap.
  assert (∀ g : nat → nat,
            length (filter (λ p : nat * cell, p.2 = label)
                      (imap (λ i c, (g i, c)) labels))
            = length (filter (λ c, c = label) labels)) as Hany.
  { induction labels as [|c labels IH]; intros g; [done|].
    rewrite imap_cons, !filter_cons. simpl.
    specialize (IH (g ∘ S)). unfold compose in *.
    case_decide; simpl; by rewrite IH. }
  apply (Hany id).
Qed.

Lemma rename_code_A_Code c :
  rename_code c = CStr "A:Code" ↔ c = CStr "Code" ∨ c = CStr "A:Code".
Proof.
  unfold rename_code. case_bool_decide; split; auto.
  intros [?|?]; congruence.
Qed.

Lemma filter_renamed_code (header : list cell) :
  length (filter (λ c, c = CStr "A:Code") (rename_code <$> header))
  = length (code_labels header).
Proof.
  unfold code_labels. induction header as [|c header IH]; [done|].
  rewrite fmap_cons, !filter_cons. pose proof (rename_code_A_Code c) as Hiff.
  destruct (decide (rename_code c = CStr "A:Code")),
    (decide (c = CStr "Code" ∨ c = CStr "A:Code"));
    simpl; rewrite ?IH; try done; exfalso; tauto.
Qed.

(** X2. [process_excel] returns a roster exactly when the spreadsheet has a
    row with the three labels, at least one row below the first such row,
    and exactly one cell of that row is the label [Code] or the label
    [A:Code]: a header row that holds [Code] twice, or [Code] and
    [A:Code], is refused. *)
Theorem process_excel_accepts_iff (df : raw_table) (st : session_state) :
  is_Some (result (process_excel (Returned df) st)) ↔
  ∃ k header,
    find_header_row df required_terms = Some k ∧
    df !! k = Some header ∧
    drop (S k) df ≠ [] ∧
    length (code_labels header) = 1.
Proof.
  split.
  - intros [[roster pre] Hrun].
    destruct (process_excel_Some _ _ _ _ Hrun)
      as (df' & k & j & header & [= <-] & Hfind & Hheader & _ & Hcolumns & Hj
          & Hrows & _).
    exists k, header. repeat split; try done.
    by rewrite <- filter_renamed_code, <- length_column_positions, <- Hcolumns, Hj.
  - intros (k & header & Hfind & Hheader & Hrows & Hone).
    rewrite <- filter_renamed_code, <- length_column_positions in Hone.
    destruct (column_positions (CStr "A:Code") (rename_code <$> header))
      as [|j [|j' js]] eqn:Hj; simplify_eq/=.
    destruct (process_excel_returns df st k header j Hfind Hheader Hj Hrows)
      as (roster & pre & Hrun).
    by exists (roster, pre).
Qed.

End Acceptance.

(** ** What the two readers keep of their tables *)

Section Readers.
Context {pd : Pandas}.

Lemma coerce_CNaN : coerce CNaN = CNaN.
Proof. reflexivity. Qed.

Lemma coerce_coerce c : coerce (coerce c) = coerce c.
Proof. apply coerce_numeric_cell. Qed.

(** A row after the conversion of column [j]: same width, the cell of
    column [j] converted, every other cell as it was. *)
Lemma alter_coerce_row j (row : list cell) :
  length (alter coerce j row) = length row ∧
  cell_at j (alter coerce j row) = coerce (cell_at j row) ∧
  ∀ j', j' ≠ j → alter coerce j row !! j' = row !! j'.
Proof.
  split; [apply length_alter|]. split; [by apply cell_at_alter|].
  intros j' Hne. by apply list_lookup_alter_ne.
Qed.

(** X3. A spreadsheet that [process_excel] accepts is kept whole: it is the
    preamble, then the header row, then the rows of the roster in the same
    order and number, none dropped for an invalid code. The labels of the
    roster are the cells of the header row, [Code] renamed; each row keeps
    its width and its cells, but for the cell of the code column, which is
    converted. *)
Theorem process_excel_keeps_every_row (df : raw_table) (st : session_state)
    (roster : frame) (pre : raw_table) :
  result (process_excel (Returned df) st) = Some (roster, pre) →
  ∃ k j header,
    find_header_row df required_terms = Some k ∧
    df = pre ++ header :: drop (S k) df ∧
    columns roster = rename_code <$> header ∧
    column_positions (CStr "A:Code") (columns roster) = [j] ∧
    length (rows roster) = length df - S k ∧
    ∀ i row, df !! (S k + i) = Some row →
      ∃ row', rows roster !! i = Some row' ∧
        length row' = length row ∧
        cell_at j row' = coerce (cell_at j row) ∧
        ∀ j', j' ≠ j → row' !! j' = row !! j'.
Proof.
  intros Hrun.
  destruct (process_excel_Some _ _ _ _ Hrun)
    as (df' & k & j & header & [= <-] & Hfind & Hheader & -> & Hcolumns & Hj & _
        & Hrows & _).
  exists k, j, header. repeat split; try done.
  - by rewrite <- (drop_S _ _ _ Hheader), take_drop.
  - by rewrite Hrows, length_to_numeric_column, length_drop.
  - intros i row Hrow. exists (alter coerce j row). split.
    + rewrite Hrows. unfold to_numeric_column.
      by rewrite list_lookup_fmap, lookup_drop, Hrow.
    + apply alter_coerce_row.
Qed.

Lemma alter_coerce_stable c n (row : list cell) :
  alter coerce n (alter coerce c (alter coerce n (alter coerce c row)))
  = alter coerce n (alter coerce c row).
Proof.
  apply list_eq. intros k. rewrite !list_lookup_alter.
  repeat case_decide; simplify_eq;
    try match goal with |- context [row !! ?i] => destruct (row !! i) end;
    simpl; by rewrite ?coerce_coerce.
Qed.

Lemma to_numeric_columns_stable c n (table : raw_table) :
  to_numeric_column n (to_numeric_column c
    (to_numeric_column n (to_numeric_column c table)))
  = to_numeric_column n (to_numeric_column c table).
Proof.
  unfold to_numeric_column. rewrite <- !list_fmap_compose.
  apply list_fmap_ext. intros _ row _. simpl. apply alter_coerce_stable.
Qed.

(** X4. A grade table that [process_csv] has validated keeps the labels,
    the number and the order of the rows of the file; each row keeps its
    width and its cells, but for the code and the score, which are
    converted. Validating the validated table again changes nothing: the
    same table and the same anomalies are returned. *)
Theorem process_csv_validated_table_is_stable (df : frame) (st : session_state)
    (cleaned_csv : frame) (anomalies : list string) :
  result (process_csv (Returned df) st) = Some (cleaned_csv, anomalies) →
  process_csv (Returned cleaned_csv) st =
    {| result := Some (cleaned_csv, anomalies); state := st; shown := [] |} ∧
  ∃ c n,
    column_index "A:Code" df = Some c ∧
    column_index "Note" df = Some n ∧
    columns cleaned_csv = columns df ∧
    length (rows cleaned_csv) = length (rows df) ∧
    ∀ i row, rows df !! i = Some row →
      ∃ row', rows cleaned_csv !! i = Some row' ∧
        length row' = length row ∧
        cell_at c row' = coerce (cell_at c row) ∧
        cell_at n row' = coerce (cell_at n row) ∧
        ∀ j, j ≠ c → j ≠ n → row' !! j = row !! j.
Proof.
  intros Hrun.
  destruct (process_csv_Some _ _ _ _ Hrun)
    as (df' & c & n & [= <-] & Hrequired & Hc & Hn & Hne & Hcleaned & _ & _
        & Hdetect & _).
  split.
  - unfold process_csv.
    assert (filter (λ col, CStr col ∉ columns cleaned_csv) required_columns = [])
      as ->.
    { destruct (filter _ _) as [|col cols] eqn:Hfilter; [done|].
      assert (col ∈ filter (λ col, CStr col ∉ columns cleaned_csv)
                      required_columns)
        as [Hnot Hin]%list_elem_of_filter by (rewrite Hfilter; left).
      destruct Hnot. rewrite Hcleaned. simpl. by apply Hrequired. }
    rewrite bool_decide_eq_true_2 by done.
    assert (columns cleaned_csv = columns df) as Hcolumns by by rewrite Hcleaned.
    rewrite (column_index_columns "A:Code" _ _ Hcolumns), Hc.
    rewrite (column_index_columns "Note" _ _ Hcolumns), Hn.
    assert (to_numeric_column n (to_numeric_column c (rows cleaned_csv))
            = rows cleaned_csv) as Hstable.
    { rewrite Hcleaned. simpl. apply to_numeric_columns_stable. }
    cbn [columns rows]. rewrite Hstable, Hdetect, Hcolumns.
    by rewrite Hcleaned.
  - exists c, n. rewrite Hcleaned. cbn [columns rows]. repeat split; try done.
    + by rewrite !length_to_numeric_column.
    + intros i row Hrow. exists (alter coerce n (alter coerce c row)). split.
      { unfold to_numeric_column.
        by rewrite !list_lookup_fmap, Hrow. }
      split; [by rewrite !length_alter|]. split; [|split].
      * by rewrite cell_at_alter_ne, cell_at_alter.
      * by rewrite cell_at_alter, cell_at_alter_ne.
      * intros j Hc' Hn'. by rewrite !list_lookup_alter_ne.
Qed.

(** X5. No stage fails in silence, and only [process_excel] writes to the
    session: each of the three functions returns nothing exactly when it
    shows one error; [process_excel] shows otherwise at most one warning,
    and the two others show nothing; [process_csv] and
    [generate_final_excel] leave the session state as it is, whether they
    fail or not. *)
Theorem every_failure_is_reported (excel_file : raising raw_table)
    (csv_file : raising frame) (cleaned_csv : frame) (st : session_state) :
  (result (process_excel excel_file st) = None ↔
   ∃ text, shown (process_excel excel_file st) = [Error text]) ∧
  (is_Some (result (process_excel excel_file st)) →
   shown (process_excel excel_file st) = [] ∨
   ∃ text, shown (process_excel excel_file st) = [Warning text]) ∧
  (result (process_csv csv_file st) = None ↔
   ∃ text, shown (process_csv csv_file st) = [Error text]) ∧
  (is_Some (result (process_csv csv_file st)) →
   shown (process_csv csv_file st) = []) ∧
  state (process_csv csv_file st) = st ∧
  (result (generate_final_excel cleaned_csv st) = None ↔
   ∃ text, shown (generate_final_excel cleaned_csv st) = [Error text]) ∧
  (is_Some (result (generate_final_excel cleaned_csv st)) →
   shown (generate_final_excel cleaned_csv st) = []) ∧
  state (generate_final_excel cleaned_csv st) = st.
Proof.
  assert (∀ n, invalid_codes_warning n = [] ∨
               ∃ text, invalid_codes_warning n = [Warning text]) as Hwarning.
  { intros n. unfold invalid_codes_warning. case_bool_decide; eauto. }
  split; [|split].
  - destruct (result (process_excel excel_file st)) as [[roster pre]|] eqn:Hrun.
    + destruct (process_excel_Some _ _ _ _ Hrun)
        as (df & k & j & header & _ & _ & _ & _ & _ & _ & _ & _ & _ & ->).
      split; [done|]. intros [text Htext].
      by destruct (Hwarning (length (filter (λ row, isna (cell_at j row))
                                       (rows roster)))) as [Heq|[w Heq]];
        rewrite Heq in Htext.
    + split; [|done]. intros _. revert Hrun.
      destruct excel_file as [e|df]; [shown_message|]. unfold process_excel.
      destruct (find_header_row df required_terms) as [k|]; [|shown_message].
      destruct (df_empty _); [shown_message|].
      destruct (column_positions _ _) as [|j [|j' js]]; shown_message.
  - intros [[roster pre] Hrun].
    destruct (process_excel_Some _ _ _ _ Hrun)
      as (df & k & j & header & _ & _ & _ & _ & _ & _ & _ & _ & _ & ->).
    apply Hwarning.
  - assert (match result (process_csv csv_file st) with
            | Some _ => shown (process_csv csv_file st) = []
            | None => ∃ text, shown (process_csv csv_file st) = [Error text]
            end ∧ state (process_csv csv_file st) = st) as [Hcsv Hcsv_state].
    { destruct csv_file as [e|df]; [split; shown_message|]. unfold process_csv.
      case_bool_decide; [|split; shown_message].
      destruct (column_index "A:Code" df); [|split; shown_message].
      destruct (column_index "Note" df); [|split; shown_message].
      simpl. destruct (detect_anomalies _ _ st); split; shown_message. }
    assert (match result (generate_final_excel cleaned_csv st) with
            | Some _ => shown (generate_final_excel cleaned_csv st) = []
            | None => ∃ text,
                shown (generate_final_excel cleaned_csv st) = [Error text]
            end ∧ state (generate_final_excel cleaned_csv st) = st)
      as [Hfinal Hfinal_state].
    { unfold generate_final_excel.
      destruct (match original_data st with
                | Some original => _
                | None => _
                end); split; shown_message. }
    destruct (result (process_csv csv_file st)),
      (result (generate_final_excel cleaned_csv st));
      repeat split; try done; try (intros [? ?]; done);
      try (intros [text Htext]; congruence).
Qed.

End Readers.

(** ** A grade file without anomaly *)

Section NoAnomaly.
Context {pd : Pandas}.

Lemma count_report_nil n text : count_report n text = [] ↔ n = 0.
Proof. unfold count_report. case_bool_decide; split; done. Qed.

Lemma length_filter_0 {A} (P : A → Prop) `{∀ x, Decision (P x)} (l : list A) :
  length (filter P l) = 0 ↔ ∀ x, x ∈ l → ¬ P x.
Proof.
  induction l as [|x l IH].
  - split; [intros _ x Hin; inversion Hin | done].
  - rewrite filter_cons. destruct (decide (P x)) as [HP|HP]; simpl.
    + split; [done|]. intros Hall. destruct (Hall x); [left | done].
    + rewrite IH. split.
      * intros Hall y [->|Hin]%elem_of_cons; auto.
      * intros Hall y Hin. apply Hall. by right.
Qed.

Lemma count_unparsable_0 (cells : list cell) :
  count_unparsable cells = 0 ↔ ∀ x, x ∈ cells → is_Some (to_numeric x).
Proof.
  unfold count_unparsable. rewrite length_filter_0. split.
  - intros Hall x Hin. destruct (to_numeric x) eqn:Hx; [done|]. by destruct (Hall x).
  - intros Hall x Hin Hx. destruct (Hall x Hin) as [q Hq]. congruence.
Qed.

Lemma no_score_out_of_range (cells : list cell) :
  ¬ Exists out_of_range (coerce <$> cells) ↔
  ∀ x q, x ∈ cells → to_numeric x = Some q → (0 ≤ q ∧ q ≤ Q2Qc 20)%Qc.
Proof.
  rewrite Exists_exists. split.
  - intros Hnone x q Hin Hq. split; apply Qcnot_lt_le; intros Hlt; apply Hnone;
      exists (CNum q); (split; [apply elem_of_coerce; by exists x|]);
      exists q; auto.
  - intros Hall (y & Hin & q & -> & Hq).
    apply elem_of_coerce in Hin as (x & Hin & Hx).
    destruct (Hall x q Hin Hx) as [H0 H20].
    destruct Hq as [Hq|Hq]; [by apply (Qcle_not_lt _ _ H0) | by apply (Qcle_not_lt _ _ H20)].
Qed.

Lemma missing_codes_Returned_inv original code missing :
  missing_codes original code = Returned missing →
  ∃ j, column_positions (CStr "A:Code") (columns original) = [j].
Proof.
  unfold missing_codes.
  destruct (column_positions _ _) as [|j [|j' js]]; [done| |done]. by exists j.
Qed.

Lemma no_code_absent (roster_codes csv_codes : list cell) :
  size (identifiers roster_codes ∖ identifiers csv_codes)
  + length (filter (λ x, number_of x = None) roster_codes) = 0 ↔
  ∀ x, x ∈ roster_codes → ∃ q, x = CNum q ∧ CNum q ∈ csv_codes.
Proof.
  rewrite Nat.eq_add_0, size_empty_iff, length_filter_0. split.
  - intros [Hempty Hnumbers] x Hin.
    destruct x as [text|q|]; [by destruct (Hnumbers (CStr text)) | | by destruct (Hnumbers CNaN)].
    exists q. split; [done|].
    destruct (decide (CNum q ∈ csv_codes)) as [|Hnot]; [done|].
    assert (q ∈ identifiers roster_codes ∖ identifiers csv_codes) as Hq.
    { apply elem_of_difference. by rewrite !elem_of_identifiers. }
    rewrite Hempty in Hq. by apply not_elem_of_empty in Hq.
  - intros Hall. split.
    + intros q. rewrite elem_of_difference, !elem_of_identifiers. split.
      * intros [Hin Hnot]. destruct (Hall _ Hin) as (q' & Heq & Hq).
        injection Heq as <-. done.
      * intros Hq. by apply not_elem_of_empty in Hq.
    + intros x Hin Hx. destruct (Hall x Hin) as (q & -> & _). done.
Qed.

(** X6. The anomaly list of a validated grade file is empty exactly when
    every score is read as a number between 0 and 20, every code is read as
    a number, and, when a roster is stored, every cell of its code column
    is a number that is the code of some row of the grade file. Codes of
    the grade file that the roster does not hold raise no anomaly. *)
Theorem no_anomaly_iff (grades : frame) (st : session_state)
    (cleaned_csv : frame) (anomalies : list string) (c n : nat) :
  result (process_csv (Returned grades) st) = Some (cleaned_csv, anomalies) →
  column_index "A:Code" grades = Some c →
  column_index "Note" grades = Some n →
  (anomalies = [] ↔
   (∀ score, score ∈ column n (rows grades) →
      ∃ q, to_numeric score = Some q ∧ (0 ≤ q ∧ q ≤ Q2Qc 20)%Qc) ∧
   (∀ code, code ∈ column c (rows grades) → is_Some (to_numeric code)) ∧
   (∀ roster, original_data st = Some roster →
      ∃ j, column_positions (CStr "A:Code") (columns roster) = [j] ∧
        ∀ x, x ∈ column j (rows roster) →
          ∃ q code, x = CNum q ∧ code ∈ column c (rows grades) ∧
            to_numeric code = Some q)).
Proof.
  intros Hrun Hc Hn.
  destruct (process_csv_Some _ _ _ _ Hrun)
    as (df & c' & n' & [= <-] & _ & Hc' & Hn' & _ & _ & Hcode & Hnote & Hdetect & _).
  assert (c' = c) as -> by congruence. assert (n' = n) as -> by congruence.
  destruct (detect_anomalies_Returned _ _ _ _ Hdetect)
    as (range_part & roster_part & -> & Hrange & Hroster).
  rewrite Hnote, Hcode, !count_nan_coerce in *.
  rewrite !app_nil, !count_report_nil, !count_unparsable_0.
  assert (range_part = [] ↔
          ∀ x q, x ∈ column n (rows grades) → to_numeric x = Some q →
                 (0 ≤ q ∧ q ≤ Q2Qc 20)%Qc) as ->.
  { rewrite <- no_score_out_of_range. destruct Hrange as [[Hex ->]|[Hex ->]]; split; done. }
  assert (roster_part = [] ↔
          ∀ roster, original_data st = Some roster →
            ∃ j, column_positions (CStr "A:Code") (columns roster) = [j] ∧
              ∀ x, x ∈ column j (rows roster) →
                ∃ q code, x = CNum q ∧ code ∈ column c (rows grades) ∧
                  to_numeric code = Some q) as ->.
  { destruct (original_data st) as [original|].
    - destruct Hroster as (missing & Hmissing & ->).
      destruct (missing_codes_Returned_inv _ _ _ Hmissing) as [j Hj].
      rewrite count_report_nil, (missing_codes_len _ _ _ _ Hj Hmissing), no_code_absent.
      split.
      + intros Hall roster [= <-]. exists j. split; [done|]. intros x Hin.
        destruct (Hall x Hin) as (q & -> & (code & Hcode_in & Hq)%elem_of_coerce).
        by exists q, code.
      + intros Hall x Hin. destruct (Hall original eq_refl) as (j' & Hj' & Hcells).
        assert (j' = j) as -> by congruence.
        destruct (Hcells x Hin) as (q & code & -> & Hcode_in & Hq).
        exists q. split; [done|]. apply elem_of_coerce. by exists code.
    - subst. split; [by intros _ roster [=] | done]. }
  split.
  - intros (Hnotes & Hrange' & Hcodes & Hroster'). split; [|by split].
    intros score Hin. destruct (Hnotes score Hin) as [q Hq]. exists q.
    split; [done|]. by apply (Hrange' score).
  - intros (Hscores & Hcodes & Hroster'). split; [|split; [|by split]].
    + intros score Hin. destruct (Hscores score Hin) as (q & Hq & _). by exists q.
    + intros score v Hin Hv. destruct (Hscores score Hin) as (v' & Hv' & Hle).
      assert (v' = v) as Heq by congruence. by rewrite <- Heq.
Qed.

End NoAnomaly.
(** ** The left join in general *)

Section LeftJoinBlocks.
Context {pd : Pandas}.

Lemma elem_of_matching_notes key (right : list (cell * cell)) note :
  note ∈ matching_notes key right ↔
  ∃ code, (code, note) ∈ right ∧ number_of code = number_of key.
Proof.
  unfold matching_notes. rewrite list_elem_of_fmap. split.
  - intros ([code note'] & -> & [Hkey Hin]%list_elem_of_filter). by exists code.
  - intros (code & Hin & Hkey). exists (code, note). split; [done|].
    by apply list_elem_of_filter.
Qed.

Lemma merge_row_block j (right : list (cell * cell)) (row : list cell) :
  block_of j right row
    (match matching_notes (cell_at j row) right with
     | [] => [row ++ [CNaN]]
     | notes => (λ note, row ++ [note]) <$> notes
     end).
Proof.
  destruct (matching_notes (cell_at j row) right) as [|note notes] eqn:Hnotes.
  - assert (∀ code score, (code, score) ∈ right →
              number_of code ≠ number_of (cell_at j row)) as Hnone.
    { intros code score Hin Hkey.
      assert (score ∈ matching_notes (cell_at j row) right) as Hscore.
      { apply elem_of_matching_notes. by exists code. }
      rewrite Hnotes in Hscore. inversion Hscore. }
    split; [done|]. split.
    + intros merged ->%list_elem_of_singleton. exists CNaN. split; [done|]. by left.
    + intros code score Hin Hkey. by destruct (Hnone code score).
  - rewrite <- Hnotes. split; [by rewrite Hnotes|]. split.
    + intros merged (score & -> & Hscore)%list_elem_of_fmap. exists score.
      split; [done|]. right. by apply elem_of_matching_notes.
    + intros code score Hin Hkey. apply list_elem_of_fmap. exists score.
      split; [done|]. apply elem_of_matching_notes. by exists code.
Qed.

Lemma merge_rows_blocks j (left : raw_table) (right : list (cell * cell)) :
  ∃ blocks, merge_rows j left right = concat blocks ∧
    Forall2 (block_of j right) left blocks ∧
    length (merge_rows j left right) =
    sum_list ((λ row, length (matching_notes (cell_at j row) right) `max` 1)
                <$> left).
Proof.
  unfold merge_rows. induction left as [|row left (blocks & IH & Hblocks & Hlen)].
  - by exists [].
  - rewrite bind_cons, fmap_cons, length_app, Hlen, IH. simpl.
    eexists (_ :: blocks). split; [reflexivity|]. split.
    + constructor; [apply merge_row_block | done].
    + f_equal. destruct (matching_notes _ _); simpl; [done|].
      rewrite length_fmap. lia.
Qed.

(** X7. Whatever the grade table holds, the left join never drops or
    reorders a roster row: the merged rows are the roster rows in order,
    each replaced by a non-empty block of copies of itself followed by a
    note. The notes of a block are those of all the grade rows with the
    code of the roster row, or one missing note when there is no such grade
    row; so a roster row is repeated exactly when several grade rows have
    its code, and the merged table has as many rows as the sum over the
    roster rows of the number of grade rows with its code, counted as one
    when there is none. *)
Theorem left_join_keeps_every_roster_row (left : frame)
    (right : list (cell * cell)) (final_df : frame) :
  merge left right = Returned final_df →
  ∃ j blocks,
    column_positions (CStr "A:Code") (columns left) = [j] ∧
    rows final_df = concat blocks ∧
    Forall2 (block_of j right) (rows left) blocks ∧
    length (rows final_df) =
      sum_list ((λ row, length (matching_notes (cell_at j row) right) `max` 1)
                  <$> rows left) ∧
    length (rows left) ≤ length (rows final_df).
Proof.
  unfold merge. intros Hmerge.
  destruct (column_positions _ _) as [|j [|j' js]] eqn:Hj; [done| |done].
  destruct (merge_labels (columns left)) as [e|labels]; [done|].
  simpl in Hmerge. injection Hmerge as <-. simpl.
  destruct (merge_rows_blocks j (rows left) right) as (blocks & Hrows & Hblocks & Hlen).
  exists j, blocks. repeat split; try done.
  rewrite Hlen. clear. induction (rows left) as [|row rest IH]; [done|].
  rewrite fmap_cons. simpl. lia.
Qed.

End LeftJoinBlocks.
(** ** When the second tab offers a final file, and what the file holds *)

Section FinalFile.
Context {pd : Pandas}.

Lemma merge_labels_Raised (left : list cell) labels :
  merge_labels left = Returned labels → ¬ labels_clash left.
Proof.
  unfold merge_labels, labels_clash. intros Hlabels [Hnote Hx].
  by rewrite !bool_decide_eq_true_2 in Hlabels.
Qed.

Lemma generate_final_excel_Some cleaned_csv st final_file :
  result (generate_final_excel cleaned_csv st) = Some final_file →
  ∃ roster pre right final_df,
    original_data st = Some roster ∧
    header_rows st = Some pre ∧
    code_note cleaned_csv = Returned right ∧
    merge roster right = Returned final_df.
Proof.
  unfold generate_final_excel.
  destruct (original_data st) as [roster|]; [|done].
  destruct (code_note cleaned_csv) as [e|right]; [done|]. simpl.
  destruct (merge roster right) as [e|final_df] eqn:Hmerge; [done|]. simpl.
  destruct (header_rows st) as [pre|]; [|done].
  intros _. by exists roster, pre, right, final_df.
Qed.

Lemma merge_Returned_inv (left : frame) right final_df :
  merge left right = Returned final_df →
  ∃ j, column_positions (CStr "A:Code") (columns left) = [j] ∧
    merge_labels (columns left) = Returned (columns final_df) ∧
    rows final_df = merge_rows j (rows left) right.
Proof.
  unfold merge.
  destruct (column_positions _ _) as [|j [|j' js]]; [done| |done].
  destruct (merge_labels (columns left)) as [e|labels]; [done|].
  simpl. intros [= <-]. by exists j.
Qed.

(** X9. In a well-formed session (every session that the page reaches is
    one), uploading a grade file yields a final file exactly when a roster
    is stored, the grade file has the four required columns, and the roster
    does not hold a column [Note] together with a column [Note_x] or a
    column [Note_y]. Nothing that the cells of the grade file hold, and no
    anomaly, withholds the file. *)
Theorem final_file_offered_iff (grades : frame) (st : session_state) :
  session_ok st →
  (is_Some (tab2 (Returned grades) st) ↔
   ∃ roster,
     original_data st = Some roster ∧
     (∀ col, col ∈ required_columns → CStr col ∈ columns grades) ∧
     ¬ labels_clash (columns roster)).
Proof.
  intros Hst. unfold tab2. split.
  - destruct (original_data st) as [roster|] eqn:Hroster; [|by intros [? [=]]].
    destruct (result (process_csv (Returned grades) st))
      as [[cleaned_csv anomalies]|] eqn:Hcsv; [|by intros [? [=]]].
    intros [final_file Hfile]. exists roster. split; [done|].
    destruct (process_csv_Some _ _ _ _ Hcsv)
      as (df & _ & _ & [= <-] & Hrequired & _).
    split; [done|].
    destruct (generate_final_excel_Some _ _ _ Hfile)
      as (roster' & _ & right & final_df & Hroster' & _ & _ & Hmerge).
    assert (roster' = roster) as -> by congruence.
    destruct (merge_Returned_inv _ _ _ Hmerge) as (_ & _ & Hlabels & _).
    by eapply merge_labels_Raised.
  - intros (roster & Hroster & Hrequired & Hclash).
    pose proof (session_ok_roster_invariant st Hst) as Hinv.
    destruct (process_csv_returns grades st Hrequired Hinv)
      as (cleaned_csv & anomalies & Hcsv).
    rewrite Hroster, Hcsv. simpl.
    destruct (process_csv_Some (Returned grades) st cleaned_csv anomalies)
      as (df & c & n & [= <-] & _ & Hc & Hn & _ & Hcleaned & _);
      [by rewrite Hcsv|].
    assert (columns cleaned_csv = columns grades) as Hcolumns by by rewrite Hcleaned.
    rewrite <- (column_index_columns _ _ _ Hcolumns) in Hc.
    rewrite <- (column_index_columns _ _ _ Hcolumns) in Hn.
    pose proof (code_note_Returned cleaned_csv c n Hc Hn) as Hright.
    destruct (Hinv roster Hroster) as [j Hj].
    destruct (merge_Returned roster
                (zip (column c (rows cleaned_csv)) (column n (rows cleaned_csv)))
                j Hj Hclash) as (labels & _ & Hmerge).
    unfold session_ok in Hst. rewrite Hroster in Hst.
    destruct (header_rows st) as [pre|] eqn:Hpre; [|done].
    destruct (generate_final_excel_layout _ _ _ _ _ _ Hroster Hpre Hright Hmerge)
      as (final_file & -> & _).
    by exists final_file.
Qed.

Lemma number_of_coerce c : number_of (coerce c) = to_numeric c.
Proof. unfold coerce. by destruct (to_numeric c). Qed.

Lemma elem_of_zip_fmap {A B C} (f : A → B) (g : A → C) (l : list A) b c :
  (b, c) ∈ zip (f <$> l) (g <$> l) ↔ ∃ x, x ∈ l ∧ b = f x ∧ c = g x.
Proof.
  induction l as [|a l IH]; simpl.
  - split; [by intros Hin; inversion Hin | by intros (x & Hin & _); inversion Hin].
  - rewrite elem_of_cons, IH. split.
    + intros [[= -> ->]|(x & Hin & -> & ->)]; [exists a | exists x];
        (split; [|done]); [left | by right].
    + intros (x & [->|Hin]%elem_of_cons & -> & ->); [by left|].
      right. by exists x.
Qed.

Lemma merge_labels_lookup (left : list cell) labels :
  merge_labels left = Returned labels →
  (∀ j label, left !! j = Some label →
     labels !! j =
     Some (if bool_decide (label = CStr "Note") then CStr "Note_x" else label)) ∧
  labels !! length left =
    Some (if bool_decide (CStr "Note" ∈ left) then CStr "Note_y" else CStr "Note").
Proof.
  unfold merge_labels. case_bool_decide as Hnote.
  - case_bool_decide; [done|]. intros [= <-]. split.
    + intros j label Hj. rewrite lookup_app_l
        by (rewrite length_fmap; by eapply lookup_lt_Some).
      by rewrite list_lookup_fmap, Hj.
    + rewrite lookup_app_r by (by rewrite length_fmap).
      by rewrite length_fmap, Nat.sub_diag.
  - intros [= <-]. split.
    + intros j label Hj. rewrite lookup_app_l by (by eapply lookup_lt_Some).
      rewrite Hj. case_bool_decide as Hlabel; [|done].
      destruct Hnote. rewrite <- Hlabel. by eapply list_elem_of_lookup_2.
    + by rewrite lookup_app_r, Nat.sub_diag.
Qed.

(** X8. From the spreadsheet to the final file. When a spreadsheet is
    processed and a grade file in which no code occurs twice is then
    uploaded, the final file is the spreadsheet with one more column: the
    rows above the header row are copied cell for cell; the header row
    keeps its labels, but [Code] reads [A:Code] and a label [Note] reads
    [Note_x], and the new column is labelled [Note] ([Note_y] when the
    spreadsheet had a [Note]); each student row stays at its row index
    with its cells, the code converted, and receives in the new column the
    converted score of the grade row whose code reads as the same number
    (two codes that are read as no number count as the same), or nothing
    when there is no such grade row. Nothing is written below the last row
    of the spreadsheet. *)
Theorem final_file_reproduces_spreadsheet (df : raw_table)
    (st0 : session_state) (roster : frame) (pre : raw_table) (grades : frame)
    (c n : nat) (book : sheet) :
  result (process_excel (Returned df) st0) = Some (roster, pre) →
  tab2 (Returned grades) (state (process_excel (Returned df) st0)) = Some book →
  column_index "A:Code" grades = Some c →
  column_index "Note" grades = Some n →
  NoDup (to_numeric <$> column c (rows grades)) →
  ∃ k header jc,
    find_header_row df required_terms = Some k ∧
    df !! k = Some header ∧
    column_positions (CStr "A:Code") (rename_code <$> header) = [jc] ∧
    (∀ i row j, i < k → df !! i = Some row →
       sheet_cell book i j = cell_at j row) ∧
    (∀ j label, header !! j = Some label →
       sheet_cell book k j =
       if bool_decide (label = CStr "Code") then CStr "A:Code"
       else if bool_decide (label = CStr "Note") then CStr "Note_x"
       else label) ∧
    sheet_cell book k (length header) =
      (if bool_decide (CStr "Note" ∈ header) then CStr "Note_y" else CStr "Note") ∧
    (∀ i row, k < i → df !! i = Some row →
       (∀ j, j < length row →
          sheet_cell book i j =
          if decide (j = jc) then coerce (cell_at j row) else cell_at j row) ∧
       (∀ grade, grade ∈ rows grades →
          to_numeric (cell_at c grade) = to_numeric (cell_at jc row) →
          sheet_cell book i (length row) = coerce (cell_at n grade)) ∧
       ((∀ grade, grade ∈ rows grades →
           to_numeric (cell_at c grade) ≠ to_numeric (cell_at jc row)) →
        sheet_cell book i (length row) = CNaN)) ∧
    (∀ i j, length df ≤ i → book !! (i, j) = None).
Proof.
  intros Hexcel Htab Hc Hn Hnodup.
  destruct (process_excel_Some _ _ _ _ Hexcel)
    as (df' & k & jc & header & [= <-] & Hfind & Hheader & Hpre & Hcolumns & Hjc
        & _ & Hrows & Hstate & _).
  pose proof (lookup_lt_Some _ _ _ Hheader) as Hk.
  assert (length pre = k) as Hlen by (rewrite Hpre, length_take; lia).
  rewrite Hstate in Htab. unfold tab2 in Htab. cbn [original_data] in Htab.
  destruct (result (process_csv (Returned grades) _))
    as [[cleaned_csv anomalies]|] eqn:Hcsv; [|done].
  destruct (process_csv_Some _ _ _ _ Hcsv)
    as (grades' & c' & n' & [= <-] & _ & Hc' & Hn' & _ & Hcleaned & Hcode & Hnote & _).
  assert (c' = c) as -> by congruence. assert (n' = n) as -> by congruence.
  assert (columns cleaned_csv = columns grades) as Hlabels by by rewrite Hcleaned.
  rewrite <- (column_index_columns _ _ _ Hlabels) in Hc.
  rewrite <- (column_index_columns _ _ _ Hlabels) in Hn.
  pose proof (code_note_Returned cleaned_csv c n Hc Hn) as Hright.
  rewrite Hcode, Hnote in Hright. unfold column in Hright at 1 2.
  set (right := zip (coerce <$> (cell_at c <$> rows grades))
                    (coerce <$> (cell_at n <$> rows grades))) in *.
  assert (∀ code score, (code, score) ∈ right ↔
            ∃ grade, grade ∈ rows grades ∧ code = coerce (cell_at c grade) ∧
                     score = coerce (cell_at n grade)) as Hright_elem.
  { intros code score. unfold right. rewrite <- !list_fmap_compose.
    apply elem_of_zip_fmap. }
  assert (NoDup (number_of <$> right.*1)) as Hkeys.
  { unfold right. rewrite fst_zip by (by rewrite !length_fmap).
    unfold column in Hnodup. rewrite <- list_fmap_compose in Hnodup.
    rewrite <- !list_fmap_compose.
    erewrite list_fmap_ext; [exact Hnodup|]. intros _ grade _. simpl.
    apply number_of_coerce. }
  destruct (generate_final_excel_Some _ _ _ Htab)
    as (roster' & pre' & right' & final_df & [= <-] & [= <-] & Hright' & Hmerge).
  assert (right' = right) as -> by congruence.
  destruct (merge_Returned_inv _ _ _ Hmerge) as (jc' & Hjc' & Hmerged_labels & Hmerged).
  assert (jc' = jc) as -> by congruence.
  rewrite merge_rows_NoDup in Hmerged by done.
  destruct (generate_final_excel_layout cleaned_csv
              {| original_data := Some roster; header_rows := Some pre |}
              roster pre right final_df eq_refl eq_refl Hright' Hmerge)
    as (final_file & Hfile & Hcells_pre & Hcells_labels & Hcells & Hend).
  rewrite Hfile in Htab. injection Htab as ->.
  rewrite Hcolumns in Hjc, Hmerged_labels.
  destruct (merge_labels_lookup _ _ Hmerged_labels) as [Hold Hnew].
  exists k, header, jc. rewrite Hlen in *.
  split; [done|]. split; [done|]. split; [done|]. split; [|split; [|split; [|split]]].
  - intros i row j Hi Hrow. apply Hcells_pre. by rewrite Hpre, lookup_take_lt.
  - intros j label Hlabel. rewrite Hcells_labels. unfold cell_at.
    rewrite (Hold j (rename_code label)) by (by rewrite list_lookup_fmap, Hlabel).
    simpl. unfold rename_code. repeat case_bool_decide; simplify_eq; done.
  - rewrite Hcells_labels. unfold cell_at.
    rewrite length_fmap in Hnew. rewrite Hnew. simpl.
    assert (CStr "Note" ∈ rename_code <$> header ↔ CStr "Note" ∈ header) as Hiff.
    { rewrite list_elem_of_fmap. split.
      - intros (label & Heq & Hin). unfold rename_code in Heq.
        case_bool_decide; by simplify_eq.
      - intros Hin. exists (CStr "Note"). by split. }
    repeat case_bool_decide; tauto.
  - intros i row Hi Hrow.
    assert (rows final_df !! (i - S k) =
            Some (alter coerce jc row ++
                  [note_for (coerce (cell_at jc row)) right])) as Hmerged_row.
    { rewrite Hmerged, Hrows. unfold to_numeric_column.
      rewrite !list_lookup_fmap, lookup_drop.
      replace (S k + (i - S k)) with i by lia. rewrite Hrow. simpl.
      by rewrite cell_at_alter. }
    assert (∀ j, sheet_cell book i j =
                 cell_at j (alter coerce jc row ++
                            [note_for (coerce (cell_at jc row)) right])) as Hcell.
    { intros j. rewrite <- (Hcells _ _ j Hmerged_row). f_equal. lia. }
    assert (cell_at (length row)
              (alter coerce jc row ++ [note_for (coerce (cell_at jc row)) right])
            = note_for (coerce (cell_at jc row)) right) as Hlast.
    { unfold cell_at. rewrite lookup_app_r by (by rewrite length_alter).
      by rewrite length_alter, Nat.sub_diag. }
    split; [|split].
    + intros j Hj. rewrite Hcell. unfold cell_at.
      rewrite lookup_app_l by (by rewrite length_alter).
      destruct (decide (j = jc)) as [->|Hne].
      * by apply cell_at_alter.
      * by rewrite list_lookup_alter_ne.
    + intros grade Hgrade Hkey. rewrite Hcell, Hlast.
      apply (note_for_match _ _ (coerce (cell_at c grade))); [done| |].
      * apply Hright_elem. by exists grade.
      * by rewrite !number_of_coerce.
    + intros Hnone. rewrite Hcell, Hlast. apply note_for_no_match.
      intros code score (grade & Hgrade & -> & _)%Hright_elem.
      rewrite !number_of_coerce. by apply Hnone.
  - intros i j Hi. apply Hend. rewrite Hmerged, Hrows, length_fmap.
    unfold to_numeric_column. rewrite length_fmap, length_drop. lia.
Qed.

End FinalFile.
(** ** From one stage to the next *)

Section Stages.
Context {pd : Pandas}.

Lemma filter_no_number_coerce (cells : list cell) :
  length (filter (λ x, number_of x = None) (coerce <$> cells)) =
  count_unparsable cells.
Proof.
  unfold count_unparsable. induction cells as [|x cells IH]; [done|].
  rewrite fmap_cons, !filter_cons, number_of_coerce.
  case_decide; simpl; by rewrite IH.
Qed.

(** X10. The codes that the first stage warns about come back in the
    second stage as absent students. When a spreadsheet is accepted, the
    warning of [process_excel] carries the number of student rows whose
    code is not read as a number; every grade file with the required
    columns that is validated afterwards gets, as its last report, the
    number of distinct roster codes that no grade row has plus that same
    number of rows, whatever the grade file holds. *)
Theorem warned_codes_are_counted_absent (df : raw_table) (st0 : session_state)
    (roster : frame) (pre : raw_table) (grades : frame) (c : nat) :
  result (process_excel (Returned df) st0) = Some (roster, pre) →
  (∀ col, col ∈ required_columns → CStr col ∈ columns grades) →
  column_index "A:Code" grades = Some c →
  ∃ k j invalid cleaned_csv anomalies before,
    find_header_row df required_terms = Some k ∧
    column_positions (CStr "A:Code") (columns roster) = [j] ∧
    invalid = count_unparsable (column j (drop (S k) df)) ∧
    shown (process_excel (Returned df) st0) = invalid_codes_warning invalid ∧
    process_csv (Returned grades) (state (process_excel (Returned df) st0)) =
      {| result := Some (cleaned_csv, anomalies);
         state := state (process_excel (Returned df) st0);
         shown := [] |} ∧
    anomalies =
      before ++
      count_report
        (size (identifiers (column j (rows roster))
               ∖ identifiers (coerce <$> column c (rows grades)))
         + invalid)
        " étudiants de l'Excel non présents dans le CSV".
Proof.
  intros Hexcel Hrequired Hc.
  destruct (process_excel_Some _ _ _ _ Hexcel)
    as (df' & k & j & header & [= <-] & Hfind & _ & _ & _ & Hj & _ & Hrows
        & Hstate & Hshown).
  assert (column j (rows roster) = coerce <$> column j (drop (S k) df)) as Hcodes.
  { by rewrite Hrows, column_to_numeric_column. }
  set (st1 := state (process_excel (Returned df) st0)) in *.
  destruct (process_csv_returns grades st1 Hrequired)
    as (cleaned_csv & anomalies & Hrun).
  { rewrite Hstate. intros roster' [= <-]. by exists j. }
  assert (result (process_csv (Returned grades) st1) = Some (cleaned_csv, anomalies))
    as Hcsv by by rewrite Hrun.
  destruct (process_csv_Some _ _ _ _ Hcsv)
    as (grades' & c' & n & [= <-] & _ & Hc' & _ & _ & _ & Hcode & _ & Hdetect & _).
  assert (c' = c) as -> by congruence.
  destruct (detect_anomalies_Returned _ _ _ _ Hdetect)
    as (range_part & roster_part & Hanomalies & _ & Hroster_part).
  rewrite Hstate in Hroster_part. simpl in Hroster_part.
  destruct Hroster_part as (missing & Hmissing & ->).
  rewrite (missing_codes_len _ _ _ _ Hj Hmissing), Hcode in Hanomalies.
  exists k, j, (count_unparsable (column j (drop (S k) df))), cleaned_csv, anomalies.
  eexists. split; [done|]. split; [done|]. split; [done|]. split; [|split].
  - by rewrite Hshown, filter_isna_rows, Hcodes, filter_isna_coerce.
  - exact Hrun.
  - rewrite Hanomalies, !app_assoc. do 3 f_equal.
    by rewrite Hcodes, filter_no_number_coerce.
Qed.

Lemma process_excel_rejects_anywhere file st st' :
  result (process_excel file st) = None →
  state (process_excel file st') = st'.
Proof.
  destruct file as [e|df]; [done|]. unfold process_excel.
  destruct (find_header_row df required_terms) as [k|]; [|done].
  destruct (df_empty _); [done|].
  destruct (column_positions _ _) as [|j [|j' js]]; done.
Qed.

Lemma process_excel_accepts_anywhere file st st' roster pre :
  result (process_excel file st) = Some (roster, pre) →
  state (process_excel file st') =
    {| original_data := Some roster; header_rows := Some pre |}.
Proof.
  destruct file as [e|df]; [done|]. unfold process_excel.
  destruct (find_header_row df required_terms) as [k|]; [|done].
  destruct (df_empty _); [done|].
  destruct (column_positions _ _) as [|j [|j' js]]; [done| |done].
  simpl. by intros [= <- <-].
Qed.

Lemma session_app reruns reruns' st :
  session (reruns ++ reruns') st = session reruns' (session reruns st).
Proof.
  revert st. induction reruns as [|[excel csv] reruns IH]; [done|].
  intros st. simpl. apply IH.
Qed.

(** X11. The session holds the roster and the preamble of the last
    spreadsheet that was accepted: reruns in which no spreadsheet is
    uploaded, or one that [process_excel] rejects, and every upload of a
    grade file, leave them as they are, and what an earlier spreadsheet had
    stored is replaced as a whole. *)
Theorem session_holds_last_accepted_spreadsheet
    (earlier later : list (option (raising raw_table) * option (raising frame)))
    (excel : raising raw_table) (csv : option (raising frame))
    (st0 : session_state) (roster : frame) (pre : raw_table) :
  result (process_excel excel st0) = Some (roster, pre) →
  Forall (λ rerun, ∀ file, rerun.1 = Some file →
            result (process_excel file st0) = None) later →
  session (earlier ++ (Some excel, csv) :: later) st0 =
    {| original_data := Some roster; header_rows := Some pre |}.
Proof.
  intros Haccepted Hlater. rewrite session_app. simpl.
  rewrite (process_excel_accepts_anywhere _ _ _ _ _ Haccepted).
  generalize {| original_data := Some roster; header_rows := Some pre |}.
  induction Hlater as [|[excel' csv'] later Hrejected _ IH]; [done|].
  intros st. simpl in *. destruct excel' as [file|]; simpl.
  - by rewrite (process_excel_rejects_anywhere _ _ _ (Hrejected file eq_refl)).
  - apply IH.
Qed.

End Stages.
(** * Scenarios of the stages together *)

Section StageScenarios.

(** A spreadsheet with a text and an empty cell as codes: the three student
    rows are kept, the second with a missing code and its name. *)
Lemma text_code_roster_scenario :
  ∃ roster pre row',
    result (process_excel (pd := integers) (Returned sheet_with_text_code)
              initial_state) = Some (roster, pre) ∧
    length (rows roster) = 3 ∧
    rows roster !! 1 = Some row' ∧
    cell_at 0 row' = CNaN ∧
    row' !! 1 = Some (CStr "Martin").
Proof.
  edestruct (process_excel_keeps_every_row (pd := integers) sheet_with_text_code
               initial_state)
    as (k & j & header & Hfind & Hsplit & Hcolumns & Hj & Hlen & Hrows).
  - vm_compute. reflexivity.
  - vm_compute in Hfind. injection Hfind as <-.
    vm_compute in Hj. injection Hj as <-.
    destruct (Hrows 1 _ eq_refl) as (row' & Hrow' & _ & Hcode & Hother).
    eexists _, _, row'. split; [reflexivity|]. split; [exact Hlen|].
    split; [exact Hrow'|]. split; [exact Hcode|]. apply (Hother 1). lia.
Defined.

(** A grade file with a text as code and a text as score, validated and
    validated again. *)
Lemma text_grades_validated_twice_scenario :
  ∃ cleaned_csv anomalies,
    result (process_csv (pd := integers) (Returned grades_with_text) initial_state)
      = Some (cleaned_csv, anomalies) ∧
    process_csv (pd := integers) (Returned cleaned_csv) initial_state =
      {| result := Some (cleaned_csv, anomalies); state := initial_state;
         shown := [] |} ∧
    anomalies = ["1 notes manquantes"; "1 codes étudiants invalides"] ∧
    length (rows cleaned_csv) = 2.
Proof.
  edestruct (process_csv_validated_table_is_stable (pd := integers)
               grades_with_text initial_state)
    as (Hagain & c & n & Hc & Hn & Hcolumns & Hlen & Hrows).
  - vm_compute. reflexivity.
  - eexists _, _. split; [reflexivity|]. split; [exact Hagain|].
    split; [reflexivity | exact Hlen].
Defined.

(** The grades of the only student of a roster, with a score of 15: no
    anomaly, and the score is read as a number between 0 and 20. *)
Lemma dupont_no_anomaly_scenario :
  result (process_csv (pd := integers) (Returned grades_of_dupont)
            (session_after sheet_of_dupont)) = Some (grades_of_dupont, []) ∧
  ∀ score, score ∈ column 3 (rows grades_of_dupont) →
    ∃ q, to_numeric (pd := integers) score = Some q ∧ (0 ≤ q ∧ q ≤ Q2Qc 20)%Qc.
Proof.
  destruct (no_anomaly_iff (pd := integers) grades_of_dupont
              (session_after sheet_of_dupont) grades_of_dupont [] 0 3)
    as [Hscores _].
  - vm_compute. reflexivity.
  - vm_compute. reflexivity.
  - vm_compute. reflexivity.
  - split; [vm_compute; reflexivity|]. exact (proj1 (Hscores eq_refl)).
Defined.

(** Two grade rows for the only student of the roster: the merged table
    has two rows. *)
Lemma dupont_two_grades_scenario :
  ∃ final_df,
    merge roster_of_dupont [(num 1, num 15); (num 1, num 16)] = Returned final_df ∧
    length (rows final_df) = 2 ∧
    length (rows roster_of_dupont) ≤ length (rows final_df).
Proof.
  edestruct (left_join_keeps_every_roster_row roster_of_dupont
               [(num 1, num 15); (num 1, num 16)])
    as (j & blocks & Hj & Hrows & Hblocks & Hlen & Hle).
  - vm_compute. reflexivity.
  - eexists. split; [reflexivity|]. split; [reflexivity | exact Hle].
Defined.

(** The spreadsheet with three rows above its header row and its grades:
    cells of the final file. *)
Lemma promotion_final_file_scenario :
  ∃ book,
    tab2 (pd := integers) (Returned promotion_grades)
      (session_after promotion_sheet) = Some book ∧
    sheet_cell book 0 0 = CStr "Faculté des Sciences" ∧
    sheet_cell book 3 0 = CStr "A:Code" ∧
    sheet_cell book 3 3 = CStr "Note" ∧
    sheet_cell book 4 1 = CStr "Dupont" ∧
    sheet_cell book 5 3 = num 22 ∧
    book !! (6, 0) = None.
Proof.
  edestruct (final_file_reproduces_spreadsheet (pd := integers) promotion_sheet
               initial_state)
    with (grades := promotion_grades)
    as (k & header & jc & Hfind & Hheader & Hjc & Hpre & Hlabels & Hnew
        & Hstudents & Hend).
  - vm_compute. reflexivity.
  - vm_compute. reflexivity.
  - vm_compute. reflexivity.
  - vm_compute. reflexivity.
  - by_evaluation.
  - vm_compute in Hfind. injection Hfind as <-.
    vm_compute in Hheader. injection Hheader as <-.
    vm_compute in Hjc. injection Hjc as <-.
    match type of Hnew with sheet_cell ?final_file _ _ = _ => exists final_file end.
    split; [vm_compute; reflexivity|].
    split; [apply (Hpre 0 [CStr "Faculté des Sciences"; CNaN; CNaN] 0);
            [lia | reflexivity]|].
    split; [exact (Hlabels 0 _ eq_refl)|].
    split; [exact Hnew|].
    destruct (Hstudents 4 [num 1; CStr "Dupont"; CStr "Jean"]) as (Hcells & _);
      [lia | reflexivity |].
    split; [apply (Hcells 1); simpl; lia|].
    destruct (Hstudents 5 [num 2; CStr "Martin"; CStr "Luc"]) as (_ & Hnote & _);
      [lia | reflexivity |].
    split; [|apply Hend; simpl; lia].
    apply (Hnote [num 2; CStr "Martin"; CStr "Luc"; num 22]).
    + by_evaluation.
    + vm_compute. reflexivity.
Defined.

(** After the spreadsheet has been processed, its grades yield a final
    file; after a spreadsheet with a column [Note] and a column [Note_y],
    valid grades yield none. *)
Lemma promotion_file_offered_scenario :
  session_ok (pd := integers) (session_after promotion_sheet) ∧
  is_Some (tab2 (pd := integers) (Returned promotion_grades)
             (session_after promotion_sheet)) ∧
  session_ok (pd := integers) (session_after sheet_with_note_columns) ∧
  tab2 (pd := integers) (Returned grades_of_dupont)
    (session_after sheet_with_note_columns) = None.
Proof.
  assert (session_ok (pd := integers) (session_after promotion_sheet)) as Hok.
  { apply session_ok_process_excel. exact I. }
  assert (session_ok (pd := integers) (session_after sheet_with_note_columns))
    as Hok'.
  { apply session_ok_process_excel. exact I. }
  split; [exact Hok|]. split; [|split; [exact Hok'|]].
  - apply (final_file_offered_iff (pd := integers) promotion_grades _ Hok).
    eexists. split; [vm_compute; reflexivity|]. split.
    + apply Forall_forall. by_evaluation.
    + unfold labels_clash. apply (proj1 (bool_decide_eq_false _)).
      vm_compute. reflexivity.
  - destruct (tab2 (pd := integers) (Returned grades_of_dupont)
                (session_after sheet_with_note_columns)) as [book|] eqn:Htab;
      [|reflexivity].
    exfalso.
    destruct (proj1 (final_file_offered_iff (pd := integers) grades_of_dupont
                       _ Hok'))
      as (roster & Hroster & _ & Hclash).
    + rewrite Htab. by exists book.
    + apply Hclash. vm_compute in Hroster. injection Hroster as <-.
      unfold labels_clash. split; [by_evaluation | right; by_evaluation].
Defined.

(** A student without a code: one code is warned about, and the grades of
    the other student are reported with one absent student. *)
Lemma empty_code_warned_and_absent_scenario :
  ∃ cleaned_csv anomalies before,
    shown (process_excel (pd := integers) (Returned sheet_with_empty_code)
             initial_state)
      = [Warning "1 codes étudiants invalides détectés"] ∧
    result (process_csv (pd := integers) (Returned grades_of_dupont)
              (session_after sheet_with_empty_code))
      = Some (cleaned_csv, anomalies) ∧
    anomalies = before ++ ["1 étudiants de l'Excel non présents dans le CSV"].
Proof.
  edestruct (warned_codes_are_counted_absent (pd := integers)
               sheet_with_empty_code initial_state)
    with (grades := grades_of_dupont)
    as (k & j & invalid & cleaned_csv & anomalies & before & Hfind & Hj
        & Hinvalid & Hshown & Hrun & Hanomalies).
  - vm_compute. reflexivity.
  - apply Forall_forall. by_evaluation.
  - vm_compute. reflexivity.
  - vm_compute in Hfind. injection Hfind as <-.
    vm_compute in Hj. injection Hj as <-.
    vm_compute in Hinvalid. subst invalid.
    exists cleaned_csv, anomalies, before.
    split; [exact Hshown|]. split; [exact (f_equal result Hrun)|].
    exact Hanomalies.
Defined.

(** Four reruns: a first spreadsheet, a second one with its grades, a
    spreadsheet without header row, and the grades alone. The session holds
    what the second spreadsheet has stored. *)
Lemma spreadsheet_replaced_scenario :
  session (pd := integers)
    [ (Some (Returned sheet_of_dupont), None);
      (Some (Returned promotion_sheet), Some (Returned promotion_grades));
      (Some (Returned sheet_without_header), None);
      (None, Some (Returned promotion_grades)) ]
    initial_state
  = session_after promotion_sheet.
Proof.
  eapply eq_trans.
  - apply (session_holds_last_accepted_spreadsheet (pd := integers)
             [ (Some (Returned sheet_of_dupont), None) ]
             [ (Some (Returned sheet_without_header), None);
               (None, Some (Returned promotion_grades)) ]
             (Returned promotion_sheet) (Some (Returned promotion_grades))
             initial_state).
    + vm_compute. reflexivity.
    + repeat constructor; intros file [= <-]. vm_compute. reflexivity.
  - vm_compute. reflexivity.
Defined.

End StageScenarios.
